(** * Vector search pipeline: the vector store, the JSON normalizer and the
      answer generator's retry loop

    A shallow embedding of [src/vector_search]: [database.py]
    ([FAISSVectorDB]), [processors.py] ([process_json]) and [llm.py]
    ([generate_answer_from_results]).

    Conventions.
    - A Python [float] (and a numpy [float32]) is the rational it denotes,
      and arithmetic on floats is exact. That is what the code computes
      where [Faiss.float32_exact] holds: there [astype('float32')] and the
      float32 operations of faiss and of the score round nothing, no
      distance overflows, and the index has a finite distance for every
      vector. What is proved of the values of distances and scores, and of
      which documents a search returns, is stated on that domain.
    - A Python [dict] is an association list in insertion order; lookup takes
      the first binding of a key and assignment replaces it in place.
    - An exception is a value of [exn]; code that can raise returns a
      [result], and a method that changes the object or the disk returns
      them beside its outcome.
    - The disk is a finite map from paths to what is there: a file, or the
      mark [NoDirectory] of a path in a directory that does not exist, where
      nothing can be opened or created.
    - A [str] is a sequence of code points below 256. *)

From Stdlib Require Import QArith Sorting.Sorted Ascii.
From stdpp Require Import gmap strings list pretty.

#[local] Set Warnings "-register-all".

(** ** Python values *)

Inductive pyval :=
| PNone
| PBool (b : bool)
| PInt (n : Z)
| PFloat (x : Q)
| PStr (s : string)
| PList (items : list pyval)
| PDict (items : list (string * pyval)).

(** [Dict[str, Any]], the type of a document. *)
Definition document := list (string * pyval).

(** [d[k]] and [k in d], for a dict with values in [V]. *)
Fixpoint dict_get {V : Type} (k : string) (d : list (string * V)) : option V :=
  match d with
  | [] => None
  | (k', v) :: rest => if String.eqb k k' then Some v else dict_get k rest
  end.

(** [d[k] = v]. *)
Fixpoint dict_set {V : Type} (k : string) (v : V) (d : list (string * V))
  : list (string * V) :=
  match d with
  | [] => [(k, v)]
  | (k', v') :: rest =>
      if String.eqb k k' then (k', v) :: rest else (k', v') :: dict_set k v rest
  end.

(** ** Exceptions

    All of them are subclasses of [Exception]. *)

Inductive exn :=
| AssertionError          (* faiss: [assert d == self.d], [assert k > 0] *)
| KeyError (key : string) (* [d[k]] on a missing key *)
| IndexError              (* list index out of range *)
| RuntimeError            (* faiss: [read_index] on what is no index,
                             [write_index] where no file can be made *)
| UnpicklingError         (* [pickle.load] on a file that is no pickle *)
| FileNotFoundError       (* [open] on a missing file or directory *)
| ValueError              (* a format code that does not fit the value *)
| TypeError.              (* a value with no such format *)

Inductive result (A : Type) :=
| Ok (a : A)
| Raise (e : exn).
Arguments Ok {A} a.
Arguments Raise {A} e.

(** Sequencing: the first exception ends the computation. *)
#[global] Instance result_ret : MRet result := fun A a => Ok a.
#[global] Instance result_bind : MBind result := fun A B f r =>
  match r with
  | Ok a => f a
  | Raise e => Raise e
  end.

(** ** The faiss library: [IndexFlatL2]

    The brute-force index of the faiss library, as its Python wrapper
    behaves: [add] and [search] assert that the rows have the index's
    dimension, [search] asserts [k > 0], returns exactly [k] entries ordered
    by increasing squared distance, and fills the entries it has no vector
    for with the label [-1]. Entries at equal distance are returned in
    storage order. *)
Module Faiss.

Definition vector := list Q.

Record IndexFlatL2 := { d : nat; xb : list vector }.

(** [faiss.IndexFlatL2(d)]. *)
Definition new_index (dim : nat) : IndexFlatL2 := {| d := dim; xb := [] |}.

(** [index.ntotal]. *)
Definition ntotal (idx : IndexFlatL2) : nat := length (xb idx).

(** [index.add(x)] for a one-row array [x]. *)
Definition add (idx : IndexFlatL2) (x : vector) : result IndexFlatL2 :=
  if decide (length x = d idx)
  then Ok {| d := d idx; xb := xb idx ++ [x] |}
  else Raise AssertionError.

(** Squared Euclidean distance. *)
Definition fvec_L2sqr (x y : vector) : Q :=
  foldr Qplus 0%Q (zip_with (fun a b => (a - b) * (a - b))%Q x y).

(** Where the arithmetic of [fvec_L2sqr] on rationals is the float32
    arithmetic of the library, whatever the order in which it sums: the
    query [x] and the stored vectors have [d] coordinates, every coordinate
    is an integer, and with [bound] the largest magnitude of a coordinate,
    [d * (2 * bound)^2 < 2^24]. Then every coordinate, every difference,
    every square and every partial sum is an integer below [2^24] in
    magnitude, which float32 holds exactly, and so are [dist / 2] and
    [1 - dist / 2] for such a sum [dist]. *)
Definition integer_valued (x : vector) : bool :=
  forallb (fun a => (Qden a =? 1)%positive) x.

Definition magnitude (x : vector) : Z :=
  foldr (fun a m => Z.max (Z.abs (Qnum a)) m) 0%Z x.

Definition float32_exact (idx : IndexFlatL2) (x : vector) : bool :=
  let rows := x :: xb idx in
  let bound := foldr (fun y m => Z.max (magnitude y) m) 0%Z rows in
  forallb (fun y => length y =? d idx) rows &&
  forallb integer_valued rows &&
  (Z.of_nat (d idx) * ((2 * bound) * (2 * bound)) <? 2 ^ 24)%Z.

(** One entry of a search result: a label with its distance, or the
    sentinel label [-1]. *)
Inductive hit :=
| Hit (dist : Q) (label : nat)
| NoHit.

(** Nearer or as near. *)
Definition nearer (a b : Q * nat) : Prop := (fst a <= fst b)%Q.

Fixpoint insert_hit (h : Q * nat) (l : list (Q * nat)) : list (Q * nat) :=
  match l with
  | [] => [h]
  | h' :: rest =>
      if Qle_bool (fst h) (fst h') then h :: l else h' :: insert_hit h rest
  end.

Fixpoint sort_hits (l : list (Q * nat)) : list (Q * nat) :=
  match l with
  | [] => []
  | h :: rest => insert_hit h (sort_hits rest)
  end.

(** All stored vectors with their distance to [x], nearest first. *)
Definition ranked (idx : IndexFlatL2) (x : vector) : list (Q * nat) :=
  sort_hits (imap (fun i y => (fvec_L2sqr x y, i)) (xb idx)).

(** [index.search(x, k)] for a one-row query [x]: the row of distances and
    the row of labels, zipped. *)
Definition search (idx : IndexFlatL2) (x : vector) (k : Z) : result (list hit) :=
  if decide (length x = d idx) then
    if decide (0 < k)%Z then
      Ok (map (fun h => Hit (fst h) (snd h)) (take (Z.to_nat k) (ranked idx x))
          ++ replicate (Z.to_nat k - ntotal idx) NoHit)
    else Raise AssertionError
  else Raise AssertionError.

End Faiss.

(** ** The file system *)

(** What is at a path: a file that holds an index written by
    [faiss.write_index], a document list written by [pickle.dump], or
    anything else; or no file and no way to make one, because the
    directory of the path does not exist. *)
Inductive file :=
| FaissIndexFile (idx : Faiss.IndexFlatL2)
| PickleFile (docs : list document)
| OtherFile (content : string)
| NoDirectory.

Abbreviation disk := (gmap string file).

(** [os.path.exists(path)]. *)
Definition exists_ (fs : disk) (path : string) : bool :=
  match fs !! path with
  | Some NoDirectory | None => false
  | Some _ => true
  end.

(** Whether a file can be opened for writing at [path]. *)
Definition writable (fs : disk) (path : string) : bool :=
  match fs !! path with
  | Some NoDirectory => false
  | _ => true
  end.

(** [os.remove(path)]. *)
Definition os_remove (fs : disk) (path : string) : result disk :=
  if exists_ fs path then Ok (delete path fs) else Raise FileNotFoundError.

(** [faiss.read_index(path)]. *)
Definition read_index (fs : disk) (path : string) : result Faiss.IndexFlatL2 :=
  match fs !! path with
  | Some (FaissIndexFile idx) => Ok idx
  | _ => Raise RuntimeError
  end.

(** [pickle.load(open(path, 'rb'))]. *)
Definition pickle_load (fs : disk) (path : string) : result (list document) :=
  match fs !! path with
  | Some (PickleFile docs) => Ok docs
  | Some NoDirectory | None => Raise FileNotFoundError
  | Some _ => Raise UnpicklingError
  end.

(** [faiss.write_index(index, path)]. *)
Definition write_index (fs : disk) (path : string) (idx : Faiss.IndexFlatL2)
  : result disk :=
  if writable fs path then Ok (<[path := FaissIndexFile idx]> fs)
  else Raise RuntimeError.

(** [pickle.dump(docs, open(path, 'wb'))]. *)
Definition pickle_dump (fs : disk) (path : string) (docs : list document)
  : result disk :=
  if writable fs path then Ok (<[path := PickleFile docs]> fs)
  else Raise FileNotFoundError.

(** ** [database.py]: [FAISSVectorDB] *)
Module Database.

(** [np.array([vector]).astype('float32')], the one row of it: by the
    convention on floats, the vector itself. *)
Definition astype_float32 (vector : Faiss.vector) : Faiss.vector := vector.

Record FAISSVectorDB := {
  dimension : nat;
  index_file : string;
  data_file : string;
  index : Faiss.IndexFlatL2;
  documents : list document
}.

(** The object while a method runs on it: [index] is an attribute only
    once it has been assigned. *)
Record instance := {
  attr_dimension : nat;
  attr_index_file : string;
  attr_data_file : string;
  attr_index : option Faiss.IndexFlatL2;
  attr_documents : list document
}.

(** A store as the object it is. *)
Definition as_instance (self : FAISSVectorDB) : instance :=
  {| attr_dimension := dimension self;
     attr_index_file := index_file self;
     attr_data_file := data_file self;
     attr_index := Some (index self);
     attr_documents := documents self |}.
Coercion as_instance : FAISSVectorDB >-> instance.

(** [_create_new_index]: assigns [index] and [documents], whatever they
    were. *)
Definition _create_new_index (self : instance) : FAISSVectorDB :=
  {| dimension := attr_dimension self;
     index_file := attr_index_file self;
     data_file := attr_data_file self;
     index := Faiss.new_index (attr_dimension self);
     documents := [] |}.

(** What the [try] in [__init__] loads when nothing raises. *)
Definition load_existing (index_file data_file : string) (fs : disk)
  : result (Faiss.IndexFlatL2 * list document) :=
  idx ← read_index fs index_file;
  docs ← pickle_load fs data_file;
  mret (idx, docs).

(** [__init__]. Before the [if] the object has [documents] and no [index].
    The [try] assigns [index] as soon as [read_index] returns, then
    [documents]; [except Exception] catches every [exn] and runs
    [_create_new_index] on the object as the exception left it. *)
Definition __init__ (dimension : nat) (index_file data_file : string) (fs : disk)
  : FAISSVectorDB :=
  let self := {| attr_dimension := dimension;
                 attr_index_file := index_file;
                 attr_data_file := data_file;
                 attr_index := None;
                 attr_documents := [] |} in
  if exists_ fs index_file && exists_ fs data_file then
    match read_index fs index_file with
    | Raise _ => _create_new_index self
    | Ok idx =>
        let self1 := {| attr_dimension := dimension;
                        attr_index_file := index_file;
                        attr_data_file := data_file;
                        attr_index := Some idx;
                        attr_documents := [] |} in
        match pickle_load fs data_file with
        | Raise _ => _create_new_index self1
        | Ok docs =>
            {| dimension := dimension;
               index_file := index_file;
               data_file := data_file;
               index := idx;
               documents := docs |}
        end
    end
  else _create_new_index self.

(** [_save]: the index file is written first, then the data file; the
    outcome and the disk as the call leaves it. *)
Definition _save (self : FAISSVectorDB) (fs : disk) : result unit * disk :=
  match write_index fs (index_file self) (index self) with
  | Raise e => (Raise e, fs)
  | Ok fs1 =>
      match pickle_dump fs1 (data_file self) (documents self) with
      | Raise e => (Raise e, fs1)
      | Ok fs2 => (Ok tt, fs2)
      end
  end.

(** [add_vector]: the returned triple is the call's outcome, the object and
    the disk after the call. *)
Definition add_vector (self : FAISSVectorDB) (vector : Faiss.vector)
    (doc : document) (fs : disk) : result unit * FAISSVectorDB * disk :=
  let vector_np := astype_float32 vector in
  match Faiss.add (index self) vector_np with
  | Raise e => (Raise e, self, fs)
  | Ok idx' =>
      let self' := {| dimension := dimension self;
                      index_file := index_file self;
                      data_file := data_file self;
                      index := idx';
                      documents := documents self ++ [doc] |} in
      match _save self' fs with
      | (Raise e, fs') => (Raise e, self', fs')
      | (Ok _, fs') =>
          match dict_get "id" doc with
          | None => (Raise (KeyError "id"), self', fs')
          | Some _ => (Ok tt, self', fs')
          end
      end
  end.

(** The loop of [search] over the entries the index returned. *)
Fixpoint search_results (documents : list document) (hits : list Faiss.hit)
    (results : list document) : result (list document) :=
  match hits with
  | [] => Ok results
  | Faiss.NoHit :: rest => search_results documents rest results
  | Faiss.Hit dist idx :: rest =>
      match documents !! idx with
      | None => Raise IndexError
      | Some stored =>
          let similarity := (1 - dist / 2)%Q in
          let doc := dict_set "similarity_score" (PFloat similarity) stored in
          match dict_get "id" doc with
          | None => Raise (KeyError "id")
          | Some _ => search_results documents rest (results ++ [doc])
          end
      end
  end.

(** [search]. It assigns to no attribute of [self] and writes no file. *)
Definition search (self : FAISSVectorDB) (query_vector : Faiss.vector) (k : Z)
  : result (list document) :=
  if decide (Faiss.ntotal (index self) = 0) then Ok []
  else
    let query_np := astype_float32 query_vector in
    let k_to_search := Z.min k (Z.of_nat (Faiss.ntotal (index self))) in
    hits ← Faiss.search (index self) query_np k_to_search;
    search_results (documents self) hits [].

(** [clear]: the outcome, the object and the disk after the call. The
    object is reset before any file is removed. *)
Definition clear (self : FAISSVectorDB) (fs : disk)
  : result unit * FAISSVectorDB * disk :=
  let self' := _create_new_index self in
  let step1 :=
    if exists_ fs (index_file self) then os_remove fs (index_file self) else Ok fs in
  match step1 with
  | Raise e => (Raise e, self', fs)
  | Ok fs1 =>
      let step2 :=
        if exists_ fs1 (data_file self) then os_remove fs1 (data_file self) else Ok fs1 in
      match step2 with
      | Raise e => (Raise e, self', fs1)
      | Ok fs2 => (Ok tt, self', fs2)
      end
  end.

End Database.

(** ** [llm.py]: the retry loop of [generate_answer_from_results] *)
Module LLM.

(** What one invocation of [openai.ChatCompletion.create], followed by the
    extraction of the answer from the response, comes to: the answer, or an
    exception [e] with [str(e) = message]. *)
Inductive outcome :=
| Answer (text : string)
| Failure (message : string).

(** What the loop has done to the outside world: how often the collaborator
    was invoked, and the [time.sleep] calls in order. *)
Record effects := { calls : nat; sleeps : list Z }.

(** [f"{result['similarity_score']:.2f}"]. *)
Definition format_2f (v : pyval) : result unit :=
  match v with
  | PFloat _ | PInt _ | PBool _ => Ok tt
  | PStr _ => Raise ValueError
  | PNone | PList _ | PDict _ => Raise TypeError
  end.

(** The loop that builds [context]; the text itself is not modelled, only
    whether building it raises. *)
Fixpoint build_context (results : list document) : result unit :=
  match results with
  | [] => Ok tt
  | r :: rest =>
      match dict_get "similarity_score" r with
      | None => Raise (KeyError "similarity_score")
      | Some score =>
          _ ← format_2f score;
          match dict_get "text" r with
          | None => Raise (KeyError "text")
          | Some _ => build_context rest
          end
      end
  end.

(** [for attempt in range(max_retries)]: [create n] is the outcome of the
    collaborator's invocation number [n] (from 0). A loop that runs out of
    attempts without returning makes the function return [None]. *)
Fixpoint retry_loop (create : nat -> outcome) (max_retries : nat)
    (attempts : list nat) (retry_delay : Z) (w : effects)
  : option string * effects :=
  match attempts with
  | [] => (None, w)
  | attempt :: rest =>
      let w1 := {| calls := S (calls w); sleeps := sleeps w |} in
      match create (calls w) with
      | Answer answer => (Some answer, w1)
      | Failure e =>
          if decide (attempt < max_retries - 1) then
            retry_loop create max_retries rest (retry_delay * 2)
              {| calls := calls w1; sleeps := sleeps w1 ++ [retry_delay] |}
          else (Some ("Error generating answer: " +:+ e), w1)
      end
  end.

Definition max_retries : nat := 3.

(** [generate_answer_from_results]: [Raise] when building the context
    raises, otherwise what the retry loop returns. *)
Definition generate_answer_from_results (create : nat -> outcome)
    (results : list document) : result (option string) * effects :=
  let w0 := {| calls := 0; sleeps := [] |} in
  match build_context results with
  | Raise e => (Raise e, w0)
  | Ok _ =>
      let '(answer, w) := retry_loop create max_retries (seq 0 max_retries) 2 w0 in
      (Ok answer, w)
  end.

(** *** Collaborators to run the loop against *)

(** Two failures, then an answer. *)
Definition third_time_lucky (n : nat) : outcome :=
  match n with
  | 0 => Failure "timeout"
  | 1 => Failure "rate limit"
  | _ => Answer "forty-two"
  end.

(** Failures only; the message tells the invocation. *)
Definition always_failing (n : nat) : outcome :=
  Failure ("failure " +:+ pretty n).

Definition one_result : list document :=
  [[("id", PStr "a"); ("text", PStr "alpha"); ("similarity_score", PFloat 1)]].

End LLM.

(** ** [processors.py]: [process_json] *)
Module Processors.

Definition dquote : ascii := "034"%char.
Definition squote : ascii := "039"%char.
Definition backslash : ascii := "092"%char.

Definition char_in (c : ascii) (s : string) : bool :=
  existsb (Ascii.eqb c) (String.list_ascii_of_string s).

Definition escape_with (esc : ascii -> option string) (s : string) : string :=
  String.concat ""
    (map (fun c => match esc c with Some e => e | None => String c "" end)
         (String.list_ascii_of_string s)).

(** The escapes [repr] and [json.dumps] share. *)
Definition common_escape (c : ascii) : option string :=
  if Ascii.eqb c backslash then Some (String backslash (String backslash ""))
  else if Ascii.eqb c "010"%char then Some (String backslash "n")
  else if Ascii.eqb c "013"%char then Some (String backslash "r")
  else if Ascii.eqb c "009"%char then Some (String backslash "t")
  else None.

(** The two lowercase hexadecimal digits of a code point below 256. *)
Definition hex_digit (n : nat) : ascii :=
  default "0"%char (String.get n "0123456789abcdef").

Definition hex2 (c : ascii) : string :=
  let n := nat_of_ascii c in
  String (hex_digit (n / 16)) (String (hex_digit (n mod 16)) "").

(** [c.isprintable()] for a code point below 256: not a control character
    (below U+0020, or U+007F to U+009F), not the no-break space U+00A0 and
    not the soft hyphen U+00AD. *)
Definition is_printable (c : ascii) : bool :=
  let n := nat_of_ascii c in
  (32 <=? n) && (n <=? 126) || (161 <=? n) && negb (n =? 173).

(** [repr(s)] for a [str]: single quotes, unless the string holds a single
    quote and no double quote; a character that is not printable and has no
    escape of its own is written [\xNN]. *)
Definition repr_str (s : string) : string :=
  let q := if char_in squote s && negb (char_in dquote s) then dquote else squote in
  let esc c := if Ascii.eqb c q then Some (String backslash (String q ""))
               else match common_escape c with
                    | Some e => Some e
                    | None => if is_printable c then None
                              else Some (String backslash "x" +:+ hex2 c)
                    end in
  String q "" +:+ escape_with esc s +:+ String q "".

(** [json.dumps(s)] for a [str], with [ensure_ascii] as it is by default:
    a character outside the range from the space to the tilde that has no
    escape of its own is written [\u00NN]. *)
Definition json_str (s : string) : string :=
  let esc c := if Ascii.eqb c dquote then Some (String backslash (String dquote ""))
               else if Ascii.eqb c "008"%char then Some (String backslash "b")
               else if Ascii.eqb c "012"%char then Some (String backslash "f")
               else match common_escape c with
                    | Some e => Some e
                    | None =>
                        let n := nat_of_ascii c in
                        if (32 <=? n) && (n <=? 126) then None
                        else Some (String backslash "u00" +:+ hex2 c)
                    end in
  String dquote "" +:+ escape_with esc s +:+ String dquote "".

Section Render.

(** [repr] of a finite [float], which both [str] and [json.dumps] print. *)
Variable float_repr : Q -> string.

(** [repr(v)]. *)
Fixpoint py_repr (v : pyval) : string :=
  match v with
  | PNone => "None"
  | PBool b => if b then "True" else "False"
  | PInt n => pretty n
  | PFloat x => float_repr x
  | PStr s => repr_str s
  | PList items => "[" +:+ String.concat ", " (map py_repr items) +:+ "]"
  | PDict items =>
      "{" +:+ String.concat ", "
                (map (fun kv => repr_str (fst kv) +:+ ": " +:+ py_repr (snd kv)) items)
          +:+ "}"
  end.

(** [str(v)]. *)
Definition py_str (v : pyval) : string :=
  match v with
  | PStr s => s
  | _ => py_repr v
  end.

(** [json.dumps(v)] with the default separators. *)
Fixpoint json_dumps (v : pyval) : string :=
  match v with
  | PNone => "null"
  | PBool b => if b then "true" else "false"
  | PInt n => pretty n
  | PFloat x => float_repr x
  | PStr s => json_str s
  | PList items => "[" +:+ String.concat ", " (map json_dumps items) +:+ "]"
  | PDict items =>
      "{" +:+ String.concat ", "
                (map (fun kv => json_str (fst kv) +:+ ": " +:+ json_dumps (snd kv)) items)
          +:+ "}"
  end.

(** [isinstance(v, dict)] and [isinstance(v, (dict, list))]. *)
Definition is_dict (v : pyval) : bool :=
  match v with PDict _ => true | _ => false end.

Definition is_dict_or_list (v : pyval) : bool :=
  match v with PDict _ | PList _ => true | _ => false end.

(** One element of a top-level list. *)
Definition list_item_document (i : nat) (item : pyval) : document :=
  if is_dict item then
    let text := json_dumps item in
    [("id", PStr ("json_" +:+ pretty i));
     ("text", PStr text);
     ("metadata", PDict [("source", PStr "json");
                         ("index", PInt (Z.of_nat i));
                         ("original", item)])]
  else
    [("id", PStr ("json_" +:+ pretty i));
     ("text", PStr (py_str item));
     ("metadata", PDict [("source", PStr "json");
                         ("index", PInt (Z.of_nat i));
                         ("original", item)])].

(** One entry of a top-level dict. *)
Definition dict_entry_document (key : string) (value : pyval) : document :=
  let text := if is_dict_or_list value then json_dumps value else py_str value in
  [("id", PStr ("json_" +:+ key));
   ("text", PStr text);
   ("metadata", PDict [("source", PStr "json");
                       ("key", PStr key);
                       ("original", value)])].

(** The body of [process_json] after [json.loads]. *)
Definition documents_of (data : pyval) : list document :=
  match data with
  | PList items => imap list_item_document items
  | PDict entries => map (fun kv => dict_entry_document (fst kv) (snd kv)) entries
  | _ =>
      [[("id", PStr "json_0");
        ("text", PStr (py_str data));
        ("metadata", PDict [("source", PStr "json"); ("original", data)])]]
  end.

(** [process_json]: [json_loads] stands for
    [json.loads(content.decode('utf-8'))], [None] when it raises. *)
Definition process_json (json_loads : string -> option pyval) (content : string)
  : result (list document) :=
  match json_loads content with
  | None => Raise ValueError
  | Some data => Ok (documents_of data)
  end.

End Render.

End Processors.

(** ** Documents as shared objects

    [search] once more, with the documents as [dict] objects on the Python
    heap, to tell a copy from an alias. An object is a [dict]; a value is an
    immutable atom or a reference to an object. [.copy()] allocates a new
    object with the bindings of the old one: the values bound are the same,
    references included. *)
Module Shared.

Abbreviation loc := nat.

Inductive atom :=
| ANone
| ABool (b : bool)
| AInt (n : Z)
| AFloat (x : Q)
| AStr (s : string).

Inductive val :=
| VAtom (a : atom)
| VRef (l : loc).

Abbreviation obj := (list (string * val)).

(** The heap: the object at location [l] is the [l]-th; allocation appends. *)
Abbreviation heap := (list obj).

(** [dict(o)] / [o.copy()]: the new object's location and the new heap. *)
Definition copy (h : heap) (o : obj) : loc * heap := (length h, h ++ [o]).

(** [o[k] = v] for the object at [l]. *)
Definition setitem (h : heap) (l : loc) (k : string) (v : val) : heap :=
  alter (dict_set k v) l h.

(** [o[k1][k2] = v] for the object at [l]: nothing happens when [o[k1]] is
    not an object (Python raises). *)
Definition setitem_in (h : heap) (l : loc) (k1 k2 : string) (v : val) : heap :=
  match h !! l with
  | Some o =>
      match dict_get k1 o with
      | Some (VRef inner) => setitem h inner k2 v
      | _ => h
      end
  | None => h
  end.

(** The store: the index and the list of references to the documents. *)
Record FAISSVectorDB := {
  index : Faiss.IndexFlatL2;
  documents : list loc
}.

(** The loop of [search]. A reference of a Python program never dangles;
    one that does stops the loop with [RuntimeError]. *)
Fixpoint search_results (h : heap) (documents : list loc) (hits : list Faiss.hit)
    (results : list loc) : result (list loc) * heap :=
  match hits with
  | [] => (Ok results, h)
  | Faiss.NoHit :: rest => search_results h documents rest results
  | Faiss.Hit dist idx :: rest =>
      match documents !! idx with
      | None => (Raise IndexError, h)
      | Some l =>
          match h !! l with
          | None => (Raise RuntimeError, h)
          | Some stored =>
              let '(doc, h1) := copy h stored in
              let similarity := (1 - dist / 2)%Q in
              let h2 := setitem h1 doc "similarity_score" (VAtom (AFloat similarity)) in
              match h2 !! doc ≫= dict_get "id" with
              | None => (Raise (KeyError "id"), h2)
              | Some _ => search_results h2 documents rest (results ++ [doc])
              end
          end
      end
  end.

(** [search]: the outcome and the heap after the call. *)
Definition search (h : heap) (self : FAISSVectorDB) (query_vector : Faiss.vector)
    (k : Z) : result (list loc) * heap :=
  if decide (Faiss.ntotal (index self) = 0) then (Ok [], h)
  else
    let k_to_search := Z.min k (Z.of_nat (Faiss.ntotal (index self))) in
    match Faiss.search (index self) query_vector k_to_search with
    | Raise e => (Raise e, h)
    | Ok hits => search_results h (documents self) hits []
    end.


(** A document [search] returned: a new object, with the bindings of a
    stored document and the score. *)
Definition returned_copy (documents : list loc) (before after : heap) (l : loc)
  : Prop :=
  length before <= l /\
  exists idx l0 stored x,
    documents !! idx = Some l0 /\
    before !! l0 = Some stored /\
    after !! l = Some (dict_set "similarity_score" (VAtom (AFloat x)) stored).

(** *** A heap to run [search] on *)

(** A stored document whose metadata is an object of its own. *)
Definition metadata_a : obj := [("source", VAtom (AStr "json"))].

Definition stored_a : obj :=
  [("id", VAtom (AStr "a")); ("text", VAtom (AStr "alpha")); ("metadata", VRef 0)].

Definition heap_a : heap := [metadata_a; stored_a].

Definition store_a : FAISSVectorDB :=
  {| index := {| Faiss.d := 1; Faiss.xb := [[0]%Q] |}; documents := [1] |}.

End Shared.

(** ** Runs of the store *)
Module Lifecycle.
Import Database.

(** The store [__init__] falls back to. *)
Definition fresh (dim : nat) (ifile dfile : string) : FAISSVectorDB :=
  {| dimension := dim; index_file := ifile; data_file := dfile;
     index := Faiss.new_index dim; documents := [] |}.

(** A sequence of [add_vector] calls, each of which returns normally. *)
Fixpoint add_all (self : FAISSVectorDB) (fs : disk)
    (adds : list (Faiss.vector * document)) : option (FAISSVectorDB * disk) :=
  match adds with
  | [] => Some (self, fs)
  | (vector, doc) :: rest =>
      match add_vector self vector doc fs with
      | (Ok _, self', fs') => add_all self' fs' rest
      | (Raise _, _, _) => None
      end
  end.

(** What a restart would load is what the store holds: the saved pair, or
    nothing loadable and an empty store. *)
Definition synced (self : FAISSVectorDB) (fs : disk) : Prop :=
  match load_existing (index_file self) (data_file self) fs with
  | Ok (idx, docs) => idx = index self /\ docs = documents self
  | Raise _ => Faiss.xb (index self) = [] /\ documents self = []
  end.

Section Location.

Variables ifile dfile : string.

(** The two artifacts, when both load, hold as many vectors as documents:
    so it is on an empty disk, and for a pair that [_save] wrote. *)
Definition consistent_artifacts (fs : disk) : Prop :=
  forall idx docs,
    load_existing ifile dfile fs = Ok (idx, docs) ->
    Faiss.ntotal idx = length docs.

(** The states of a store at [ifile], [dfile] and of its disk, with the
    (vector, document) pairs the store holds, in the order they were added:
    [__init__] on a disk with consistent artifacts, then any sequence of
    [add_vector] calls (whatever their outcome: the call returns, the
    document has no id, the index rejects the vector, or a file cannot be
    written) and [clear] calls. What was loaded counts as added pairwise.
    [search] changes neither the store nor the disk. *)
Inductive reachable
  : list (Faiss.vector * document) -> FAISSVectorDB -> disk -> Prop :=
| reach_init dim fs :
    consistent_artifacts fs ->
    let self := __init__ dim ifile dfile fs in
    reachable (zip (Faiss.xb (index self)) (documents self)) self fs
| reach_add pairs self fs vector doc self' fs' :
    reachable pairs self fs ->
    add_vector self vector doc fs = (Ok tt, self', fs') ->
    reachable (pairs ++ [(vector, doc)]) self' fs'
| reach_add_no_id pairs self fs vector doc key self' fs' :
    reachable pairs self fs ->
    add_vector self vector doc fs = (Raise (KeyError key), self', fs') ->
    reachable (pairs ++ [(vector, doc)]) self' fs'
| reach_add_rejected pairs self fs vector doc self' fs' :
    reachable pairs self fs ->
    add_vector self vector doc fs = (Raise AssertionError, self', fs') ->
    reachable pairs self' fs'
| reach_add_unsaved pairs self fs vector doc e self' fs' :
    reachable pairs self fs ->
    add_vector self vector doc fs = (Raise e, self', fs') ->
    e = RuntimeError \/ e = FileNotFoundError ->
    reachable (pairs ++ [(vector, doc)]) self' fs'
| reach_clear pairs self fs r self' fs' :
    reachable pairs self fs ->
    clear self fs = (r, self', fs') ->
    reachable [] self' fs'.

End Location.

(** *** Results of [search] *)

(** What [search] puts under ["similarity_score"] for a distance. *)
Definition similarity (dist : Q) : Q := (1 - dist / 2)%Q.

(** The document [search] returns for an entry of the index's answer. *)
Definition scored (documents : list document) (h : Q * nat) : document :=
  dict_set "similarity_score" (PFloat (similarity (fst h)))
    (default [] (documents !! snd h)).

(** The score of a result of [search]. *)
Definition score (doc : document) : option Q :=
  match dict_get "similarity_score" doc with
  | Some (PFloat x) => Some x
  | _ => None
  end.

(** [search] returned documents with these ids and (up to the
    representation of a rational) these scores, in this order. *)
Definition returns_ranking (r : result (list document))
    (expected : list (string * Q)) : Prop :=
  match r with
  | Ok docs =>
      Forall2 (fun doc e =>
                 dict_get "id" doc = Some (PStr (fst e)) /\
                 exists x, score doc = Some x /\ (x == snd e)%Q)
              docs expected
  | Raise _ => False
  end.

(** *** Stores and disks to run the methods on *)

Definition doc_a : document := [("id", PStr "a"); ("text", PStr "alpha")].
Definition doc_b : document := [("id", PStr "b"); ("text", PStr "beta")].
Definition doc_c : document := [("id", PStr "c"); ("text", PStr "gamma")].
Definition doc_without_id : document := [("text", PStr "anonymous")].

(** A first start on an empty disk. *)
Definition first_start : FAISSVectorDB :=
  __init__ 2 "vector_index.faiss" "vector_data.pkl" ∅.

(** Two additions after a first start. *)
Definition two_adds : option (FAISSVectorDB * disk) :=
  add_all first_start ∅ [([1; 0]%Q, doc_a); ([0; 1]%Q, doc_b)].

(** A store that holds one vector of dimension 2, and its disk. *)
Definition one_vector : FAISSVectorDB * disk :=
  let r := add_vector first_start [1; 0]%Q doc_a ∅ in (r.1.2, r.2).

(** An index file beside a data file that is no pickle. *)
Definition corrupt_data : disk :=
  {[ "vector_index.faiss" := FaissIndexFile {| Faiss.d := 2; Faiss.xb := [[1; 0]%Q] |};
     "vector_data.pkl" := OtherFile "junk" ]}.

(** An index file with one vector beside a data file with no document:
    two artifacts that no single [_save] wrote. *)
Definition stale_data : disk :=
  {[ "vector_index.faiss" := FaissIndexFile {| Faiss.d := 2; Faiss.xb := [[1; 0]%Q] |};
     "vector_data.pkl" := PickleFile [] ]}.

(** A disk on which the directory [missing_dir] does not exist, and a
    store constructed on two paths in it. *)
Definition missing_dir : disk :=
  {[ "missing_dir/vector_index.faiss" := NoDirectory;
     "missing_dir/vector_data.pkl" := NoDirectory ]}.

Definition store_in_missing_dir : FAISSVectorDB :=
  __init__ 2 "missing_dir/vector_index.faiss" "missing_dir/vector_data.pkl"
    missing_dir.

(** Three vectors on a line, at Euclidean distances 0, 1 and 2 from the
    origin (squared: 0, 1 and 4), stored farthest first. *)
Definition on_a_line : FAISSVectorDB :=
  {| dimension := 1;
     index_file := "vector_index.faiss";
     data_file := "vector_data.pkl";
     index := {| Faiss.d := 1; Faiss.xb := [[2]; [0]; [1]]%Q |};
     documents := [doc_c; doc_a; doc_b] |}.


End Lifecycle.

(** ** [processors.py]: [process_csv], [process_pdf] and [process_file] *)
Module Ingest.
Import Processors.

(** [{headers[j]: value for j, value in enumerate(row) if j < len(headers)}],
    from position [j] on: a cell beyond the headers is dropped, and a
    header that occurs twice keeps its first place and its last cell. *)
Fixpoint row_dict_from (headers : list string) (j : nat) (row : list string)
    (acc : list (string * string)) : list (string * string) :=
  match row with
  | [] => acc
  | value :: rest =>
      row_dict_from headers (S j) rest
        (match headers !! j with
         | Some header => dict_set header value acc
         | None => acc
         end)
  end.

Definition row_dict (headers row : list string) : list (string * string) :=
  row_dict_from headers 0 row [].

(** [f"{header}: {row_dict.get(header, '')}"]. *)
Definition cell_text (rd : list (string * string)) (header : string) : string :=
  header +:+ ": " +:+ default "" (dict_get header rd).

(** [", ".join([... for header in headers])]. *)
Definition row_text (headers : list string) (rd : list (string * string)) : string :=
  String.concat ", " (map (cell_text rd) headers).

(** The document of data row number [i] (from 1). *)
Definition row_document (headers : list string) (i : nat) (row : list string)
  : document :=
  let rd := row_dict headers row in
  [("id", PStr ("csv_" +:+ pretty i));
   ("text", PStr (row_text headers rd));
   ("metadata", PDict [("source", PStr "csv");
                       ("row", PInt (Z.of_nat i));
                       ("original", PDict (map (fun kv => (fst kv, PStr (snd kv))) rd))])].

(** The body of [process_csv] after [list(csv.reader(...))]. *)
Definition csv_documents (rows : list (list string)) : list document :=
  match rows with
  | [] => []
  | headers :: data => imap (fun i row => row_document headers (S i) row) data
  end.

(** [process_csv]: [csv_rows] stands for decoding the bytes and reading all
    rows with [csv.reader], [None] when that raises. *)
Definition process_csv (csv_rows : string -> option (list (list string)))
    (content : string) : result (list document) :=
  match csv_rows content with
  | None => Raise ValueError
  | Some rows => Ok (csv_documents rows)
  end.

(** [c.isspace()] for a code point below 256: the ASCII whitespace
    (tab to carriage return, the four separators, the space), the next-line
    control U+0085 and the no-break space U+00A0. *)
Definition is_space (c : ascii) : bool :=
  let n := nat_of_ascii c in
  (9 <=? n) && (n <=? 13) || (28 <=? n) && (n <=? 32)
  || (n =? 133) || (n =? 160).

(** [bool(text.strip())]: some character is no whitespace. *)
Definition strip_nonempty (text : string) : bool :=
  existsb (fun c => negb (is_space c)) (String.list_ascii_of_string text).

(** The loop of [process_pdf] over the pages' extracted texts, from page
    index [i] on; [total] is [len(pdf_reader.pages)]. *)
Fixpoint pdf_documents_from (total : nat) (i : nat) (pages : list string)
  : list document :=
  match pages with
  | [] => []
  | text :: rest =>
      if strip_nonempty text then
        [("id", PStr ("pdf_page_" +:+ pretty (i + 1)));
         ("text", PStr text);
         ("metadata", PDict [("source", PStr "pdf");
                             ("page", PInt (Z.of_nat (i + 1)));
                             ("total_pages", PInt (Z.of_nat total))])]
        :: pdf_documents_from total (S i) rest
      else pdf_documents_from total (S i) rest
  end.

Definition pdf_documents (pages : list string) : list document :=
  pdf_documents_from (length pages) 0 pages.

(** [process_pdf]: [pdf_pages] stands for [PyPDF2.PdfReader] and
    [extract_text] on every page, [None] when either raises. *)
Definition process_pdf (pdf_pages : string -> option (list string))
    (content : string) : result (list document) :=
  match pdf_pages content with
  | None => Raise ValueError
  | Some pages => Ok (pdf_documents pages)
  end.

(** [process_file]. *)
Definition process_file (float_repr : Q -> string)
    (json_loads : string -> option pyval)
    (csv_rows : string -> option (list (list string)))
    (pdf_pages : string -> option (list string))
    (content : string) (file_type : string) : result (list document) :=
  if String.eqb file_type "json" then process_json float_repr json_loads content
  else if String.eqb file_type "csv" then process_csv csv_rows content
  else if String.eqb file_type "pdf" then process_pdf pdf_pages content
  else Raise ValueError.

End Ingest.

(** ** [embeddings.py]: [get_embedding_for_text] *)
Module Embeddings.

(** [text.replace("\n", " ")]. *)
Fixpoint replace_newlines (text : string) : string :=
  match text with
  | EmptyString => EmptyString
  | String c rest =>
      String (if Ascii.eqb c "010"%char then " "%char else c) (replace_newlines rest)
  end.

(** [get_embedding_for_text]: [create input] is what the invocation of
    [openai.Embedding.create] with [input], followed by the extraction of
    the vector, comes to. An exception is raised again as it is. The second
    component lists the inputs the collaborator was invoked with. *)
Definition get_embedding_for_text
    (create : string -> result Faiss.vector) (text : string)
  : result Faiss.vector * list string :=
  let text := replace_newlines text in
  match create text with
  | Ok embedding => (Ok embedding, [text])
  | Raise e => (Raise e, [text])
  end.

End Embeddings.

(** ** Words for the properties below *)
Module Vocabulary.

(** What [add_vector] leaves behind when the document has no ["id"]. *)
Definition anonymous_store : Database.FAISSVectorDB :=
  (Database.add_vector Lifecycle.first_start [1; 0]%Q Lifecycle.doc_without_id ∅).1.2.

(** What the context loop of the answer generator needs of a result. *)
Definition fits_context (doc : document) : Prop :=
  (exists x, dict_get "similarity_score" doc = Some (PFloat x)) /\
  is_Some (dict_get "text" doc).

(** The document [process_pdf] makes of page number [n] (from 1). *)
Definition page_document (total n : nat) (text : string) : document :=
  [("id", PStr ("pdf_page_" +:+ pretty n));
   ("text", PStr text);
   ("metadata", PDict [("source", PStr "pdf");
                       ("page", PInt (Z.of_nat n));
                       ("total_pages", PInt (Z.of_nat total))])].

(** A document as the normalizer makes them: an id, a text, metadata. *)
Definition normalized (doc : document) : Prop :=
  exists id text metadata,
    doc = [("id", PStr id); ("text", PStr text); ("metadata", PDict metadata)].

End Vocabulary.

(** * Properties of the definitions above *)

(** ** Dictionaries *)
Section DictFacts.

Context {V : Type}.
Implicit Types (d : list (string * V)) (k : string) (v : V).

Lemma dict_get_set_eq d k v : dict_get k (dict_set k v d) = Some v.
Proof.
  induction d as [|[k' v'] d IH]; simpl.
  - by rewrite String.eqb_refl.
  - destruct (String.eqb k k') eqn:E; simpl; rewrite E; [done | exact IH].
Qed.

Lemma dict_get_set_ne d k k' v :
  k <> k' -> dict_get k' (dict_set k v d) = dict_get k' d.
Proof.
  intros Hne. induction d as [|[k0 v0] d IH]; simpl.
  - destruct (String.eqb k' k) eqn:E; [|done].
    apply String.eqb_eq in E. congruence.
  - destruct (String.eqb k k0) eqn:E; simpl.
    + apply String.eqb_eq in E. subst k0.
      destruct (String.eqb k' k) eqn:E'; [|done].
      apply String.eqb_eq in E'. congruence.
    + by rewrite IH.
Qed.

End DictFacts.

(** ** The index *)
Module FaissFacts.
Import Faiss.

Lemma add_accepts idx x :
  length x = d idx -> add idx x = Ok {| d := d idx; xb := xb idx ++ [x] |}.
Proof. intros H. unfold add. by rewrite decide_True. Qed.

Lemma add_rejects idx x : length x <> d idx -> add idx x = Raise AssertionError.
Proof. intros H. unfold add. by rewrite decide_False. Qed.

Lemma add_inv idx x idx' :
  add idx x = Ok idx' ->
  length x = d idx /\ idx' = {| d := d idx; xb := xb idx ++ [x] |}.
Proof. unfold add. case_decide; [|done]. intros [= <-]. done. Qed.

Lemma add_raises idx x e : add idx x = Raise e -> e = AssertionError /\ length x <> d idx.
Proof. unfold add. case_decide; [done|]. by intros [= <-]. Qed.

Lemma insert_hit_perm h l : insert_hit h l ≡ₚ h :: l.
Proof.
  induction l as [|h' l IH]; simpl; [done|].
  destruct (Qle_bool (fst h) (fst h')); [done|].
  rewrite IH. apply Permutation_swap.
Qed.

Lemma sort_hits_perm l : sort_hits l ≡ₚ l.
Proof.
  induction l as [|h l IH]; simpl; [done|].
  by rewrite insert_hit_perm, IH.
Qed.

Lemma insert_hit_hd h a l :
  nearer a h -> HdRel nearer a l -> HdRel nearer a (insert_hit h l).
Proof.
  intros Hah Hal. destruct l as [|h' l]; simpl.
  - by constructor.
  - destruct (Qle_bool (fst h) (fst h')); constructor; [done|].
    by inversion Hal.
Qed.

Lemma insert_hit_sorted h l : Sorted nearer l -> Sorted nearer (insert_hit h l).
Proof.
  induction 1 as [|h' l Hs IH Hhd]; simpl.
  - repeat constructor.
  - destruct (Qle_bool (fst h) (fst h')) eqn:E.
    + constructor; [by constructor|]. constructor. by apply Qle_bool_iff.
    + constructor; [exact IH|]. apply insert_hit_hd; [|done].
      unfold nearer. destruct (Qlt_le_dec (fst h') (fst h)) as [Hlt|Hle].
      * by apply Qlt_le_weak.
      * apply Qle_bool_iff in Hle. congruence.
Qed.

Lemma sort_hits_sorted l : Sorted nearer (sort_hits l).
Proof. induction l; simpl; [constructor | by apply insert_hit_sorted]. Qed.


Lemma length_ranked idx x : length (ranked idx x) = ntotal idx.
Proof.
  unfold ranked, ntotal. rewrite (Permutation_length (sort_hits_perm _)).
  apply length_imap.
Qed.

Lemma ranked_sorted idx x : Sorted nearer (ranked idx x).
Proof. apply sort_hits_sorted. Qed.

(** Every entry of the ranking is a stored vector with its distance. *)
Lemma elem_of_ranked idx x h :
  h ∈ ranked idx x ->
  exists y, xb idx !! snd h = Some y /\ fst h = fvec_L2sqr x y.
Proof.
  unfold ranked. rewrite sort_hits_perm. intros Hin.
  apply elem_of_lookup_imap_1 in Hin as (i & y & -> & Hy). eauto.
Qed.

(** [search] with [0 < k <= ntotal] and a query of the index's dimension:
    the [k] nearest, and no sentinel. *)
Lemma search_within idx x k :
  length x = d idx -> (0 < k)%Z -> (k <= Z.of_nat (ntotal idx))%Z ->
  search idx x k =
    Ok (map (fun h => Hit (fst h) (snd h)) (take (Z.to_nat k) (ranked idx x))).
Proof.
  intros Hd Hk Hle. unfold search. rewrite decide_True, decide_True by done.
  replace (Z.to_nat k - ntotal idx) with 0 by lia. simpl. by rewrite app_nil_r.
Qed.

Lemma search_rejects idx x k : length x <> d idx -> search idx x k = Raise AssertionError.
Proof. intros H. unfold search. by rewrite decide_False. Qed.

End FaissFacts.

(** ** The store *)
Module DatabaseFacts.
Import Database Lifecycle.

Lemma load_existing_exists ifile dfile fs idx docs :
  load_existing ifile dfile fs = Ok (idx, docs) ->
  fs !! ifile = Some (FaissIndexFile idx) /\ fs !! dfile = Some (PickleFile docs).
Proof.
  unfold load_existing, read_index, pickle_load.
  destruct (fs !! ifile) as [[]|]; try done.
  destruct (fs !! dfile) as [[]|]; try done.
  by intros [= -> ->].
Qed.

(** [__init__] by what the [try] body gives. *)
Lemma init_load dim ifile dfile fs :
  __init__ dim ifile dfile fs =
    match load_existing ifile dfile fs with
    | Ok (idx, docs) =>
        {| dimension := dim; index_file := ifile; data_file := dfile;
           index := idx; documents := docs |}
    | Raise _ => fresh dim ifile dfile
    end.
Proof.
  unfold __init__, load_existing, exists_, read_index, pickle_load.
  destruct (fs !! ifile) as [[]|]; destruct (fs !! dfile) as [[]|]; done.
Qed.

Lemma init_files dim ifile dfile fs :
  index_file (__init__ dim ifile dfile fs) = ifile /\
  data_file (__init__ dim ifile dfile fs) = dfile.
Proof. rewrite init_load. by destruct (load_existing _ _ _) as [[]|]. Qed.

(** Nothing loads from a path at which nothing exists. *)
Lemma load_existing_missing ifile dfile fs :
  exists_ fs ifile = false ->
  exists e, load_existing ifile dfile fs = Raise e.
Proof.
  unfold exists_, load_existing, read_index.
  destruct (fs !! ifile) as [[]|]; try done; by eexists.
Qed.

Lemma writable_insert (fs : disk) path path' (f : file) :
  f <> NoDirectory ->
  writable (<[path := f]> fs) path'
  = if decide (path = path') then true else writable fs path'.
Proof.
  intros Hf. unfold writable. case_decide as Hp.
  - subst. rewrite lookup_insert_eq. by destruct f.
  - by rewrite lookup_insert_ne.
Qed.

(** [_save] by cases: both files written, or the index file could not be
    written and nothing was, or the index file was written and the data
    file could not be. *)
Lemma save_spec self fs :
  _save self fs =
    if writable fs (index_file self) then
      if bool_decide (index_file self = data_file self) || writable fs (data_file self) then
        (Ok tt, <[data_file self := PickleFile (documents self)]>
                  (<[index_file self := FaissIndexFile (index self)]> fs))
      else (Raise FileNotFoundError,
            <[index_file self := FaissIndexFile (index self)]> fs)
    else (Raise RuntimeError, fs).
Proof.
  unfold _save, write_index, pickle_dump.
  destruct (writable fs (index_file self)); [|done].
  rewrite writable_insert by done.
  case_decide.
  - by rewrite bool_decide_eq_true_2.
  - rewrite bool_decide_eq_false_2 by done. simpl.
    by destruct (writable fs (data_file self)).
Qed.

Lemma save_ok self fs fs' :
  _save self fs = (Ok tt, fs') ->
  fs' = <[data_file self := PickleFile (documents self)]>
          (<[index_file self := FaissIndexFile (index self)]> fs).
Proof.
  rewrite save_spec. destruct (writable fs (index_file self)); [|done].
  destruct (_ || _); [|done]. by intros [= <-].
Qed.

(** What [_save] wrote loads again, when the two files are distinct. *)
Lemma load_saved self fs fs' :
  index_file self <> data_file self ->
  _save self fs = (Ok tt, fs') ->
  load_existing (index_file self) (data_file self) fs'
  = Ok (index self, documents self).
Proof.
  intros Hne ->%save_ok. unfold load_existing, read_index, pickle_load.
  rewrite lookup_insert_eq.
  rewrite lookup_insert_ne by done. by rewrite lookup_insert_eq.
Qed.

(** [add_vector] by cases. *)
Lemma add_vector_spec self vector doc fs :
  let self' := {| dimension := dimension self; index_file := index_file self;
                  data_file := data_file self;
                  index := {| Faiss.d := Faiss.d (index self);
                              Faiss.xb := Faiss.xb (index self) ++ [vector] |};
                  documents := documents self ++ [doc] |} in
  add_vector self vector doc fs =
    if decide (length vector = Faiss.d (index self)) then
      match _save self' fs with
      | (Ok _, fs') =>
          match dict_get "id" doc with
          | Some _ => (Ok tt, self', fs')
          | None => (Raise (KeyError "id"), self', fs')
          end
      | (Raise e, fs') => (Raise e, self', fs')
      end
    else (Raise AssertionError, self, fs).
Proof.
  simpl. unfold add_vector, astype_float32, Faiss.add.
  case_decide; done.
Qed.

(** The object after an [add_vector] call that got past the index. *)
Lemma add_vector_appends self vector doc fs r self' fs' :
  add_vector self vector doc fs = (r, self', fs') ->
  r <> Raise AssertionError ->
  self' = {| dimension := dimension self; index_file := index_file self;
             data_file := data_file self;
             index := {| Faiss.d := Faiss.d (index self);
                         Faiss.xb := Faiss.xb (index self) ++ [vector] |};
             documents := documents self ++ [doc] |}.
Proof.
  rewrite add_vector_spec. simpl. case_decide; [|by intros [= <- <- <-]].
  destruct (_save _ fs) as [[[]|e] fs1].
  - destruct (dict_get "id" doc); by intros [= <- <- <-].
  - by intros [= <- <- <-].
Qed.

(** Only the index's check raises [AssertionError], before anything is
    changed. *)
Lemma add_vector_rejected self vector doc fs self' fs' :
  add_vector self vector doc fs = (Raise AssertionError, self', fs') ->
  self' = self /\ fs' = fs.
Proof.
  rewrite add_vector_spec. simpl. case_decide; [|by intros [= <- <-]].
  rewrite save_spec.
  destruct (writable _ _); [destruct (_ || _)|]; try done.
  by destruct (dict_get "id" doc).
Qed.

(** [add_vector] returns when the vector fits, both files can be written
    and the document has an ["id"]. *)
Lemma add_vector_ok self vector doc fs :
  length vector = Faiss.d (index self) ->
  writable fs (index_file self) = true ->
  writable fs (data_file self) = true ->
  is_Some (dict_get "id" doc) ->
  exists self' fs',
    add_vector self vector doc fs = (Ok tt, self', fs') /\
    Faiss.xb (index self') = Faiss.xb (index self) ++ [vector] /\
    documents self' = documents self ++ [doc].
Proof.
  intros Hlen Hi Hd [id Hid]. rewrite add_vector_spec. simpl.
  rewrite decide_True by done. rewrite save_spec. simpl.
  rewrite Hi, Hd, orb_true_r, Hid. by eexists _, _.
Qed.

Lemma add_vector_ok_id self vector doc fs self' fs' :
  add_vector self vector doc fs = (Ok tt, self', fs') ->
  length vector = Faiss.d (index self) /\ is_Some (dict_get "id" doc).
Proof.
  rewrite add_vector_spec. simpl. case_decide; [|done].
  destruct (_save _ fs) as [[[]|e] fs1]; [|done].
  destruct (dict_get "id" doc); [|done]. intros _. split; [done|by eexists].
Qed.

(** An [add_vector] call that returns, or raises [KeyError], has written
    both files. *)
Lemma add_vector_saved self vector doc fs r self' fs' :
  add_vector self vector doc fs = (r, self', fs') ->
  r = Ok tt \/ (exists key, r = Raise (KeyError key)) ->
  _save self' fs = (Ok tt, fs').
Proof.
  intros Hadd Hr.
  assert (r <> Raise AssertionError) as Hna by (by destruct Hr as [->|[key ->]]).
  pose proof (add_vector_appends _ _ _ _ _ _ _ Hadd Hna) as Hself.
  rewrite add_vector_spec in Hadd. simpl in Hadd. rewrite <-Hself in Hadd.
  case_decide; [|destruct Hr as [->|[key ->]]; done].
  rewrite save_spec in Hadd |- *.
  destruct (writable fs (index_file self')).
  - destruct (_ || _).
    + destruct (dict_get "id" doc); by injection Hadd as <- <-.
    + injection Hadd as <- <-. by destruct Hr as [?|[key ?]].
  - injection Hadd as <- <-. by destruct Hr as [?|[key ?]].
Qed.

(** [clear] by cases: it never raises, and leaves no file at either path. *)
Lemma clear_spec self fs :
  exists fs',
    clear self fs = (Ok tt, _create_new_index self, fs') /\
    exists_ fs' (index_file self) = false /\
    exists_ fs' (data_file self) = false.
Proof.
  assert (forall (m : disk) p q, exists_ m q = false -> exists_ (delete p m) q = false)
    as Hdel.
  { intros m p q. unfold exists_. rewrite lookup_delete. by case_decide. }
  assert (forall (m : disk) p, exists_ (delete p m) p = false) as Heq.
  { intros m p. unfold exists_. by rewrite lookup_delete_eq. }
  unfold clear, os_remove.
  destruct (exists_ fs (index_file self)) eqn:E1.
  - destruct (exists_ (delete _ fs) (data_file self)) eqn:E2; eauto.
  - destruct (exists_ fs (data_file self)) eqn:E2; eauto.
Qed.

(** [clear] where no file is left removes nothing. *)
Lemma clear_nothing self fs :
  exists_ fs (index_file self) = false ->
  exists_ fs (data_file self) = false ->
  clear self fs = (Ok tt, _create_new_index self, fs).
Proof. intros Hi Hd. unfold clear. by rewrite Hi, Hd. Qed.

(** The loop of [search] on entries whose labels are positions of documents
    that have an ["id"]. *)
Lemma search_results_ok documents hs results :
  Forall (fun h : Q * nat =>
            exists doc, documents !! snd h = Some doc /\ is_Some (dict_get "id" doc)) hs ->
  search_results documents (map (fun h => Faiss.Hit (fst h) (snd h)) hs) results
  = Ok (results ++ map (scored documents) hs).
Proof.
  intros Hall. revert results.
  induction Hall as [|h hs (doc & Hdoc & [v Hid]) _ IH]; intros results; simpl.
  - by rewrite app_nil_r.
  - rewrite Hdoc. rewrite dict_get_set_ne, Hid by done.
    rewrite IH, <-app_assoc. simpl. unfold scored at 2. by rewrite Hdoc.
Qed.

(** [search] reads the index and the documents only. *)
Lemma search_ext self1 self2 q k :
  index self1 = index self2 -> documents self1 = documents self2 ->
  search self1 q k = search self2 q k.
Proof. unfold search, astype_float32. by intros -> ->. Qed.

Lemma search_empty self q k :
  Faiss.xb (index self) = [] -> search self q k = Ok [].
Proof. intros H. unfold search, astype_float32, Faiss.ntotal. rewrite H. done. Qed.



(** *** The disk mirrors the store *)

Lemma init_synced dim ifile dfile fs : synced (__init__ dim ifile dfile fs) fs.
Proof.
  unfold synced. destruct (init_files dim ifile dfile fs) as [-> ->].
  rewrite init_load. by destruct (load_existing ifile dfile fs) as [[]|].
Qed.

Lemma add_vector_files self vector doc fs r self' fs' :
  add_vector self vector doc fs = (r, self', fs') ->
  index_file self' = index_file self /\ data_file self' = data_file self.
Proof.
  rewrite add_vector_spec. simpl. case_decide; [|by intros [= <- <- <-]].
  destruct (_save _ fs) as [[[]|e] fs1].
  - destruct (dict_get "id" doc); by intros [= <- <- <-].
  - by intros [= <- <- <-].
Qed.

Lemma add_vector_synced self vector doc fs r self' fs' :
  index_file self <> data_file self ->
  synced self fs ->
  add_vector self vector doc fs = (r, self', fs') ->
  r = Ok tt \/ (exists key, r = Raise (KeyError key)) ->
  synced self' fs'.
Proof.
  intros Hne Hs Hadd Hr.
  destruct (add_vector_files _ _ _ _ _ _ _ Hadd) as [Hi Hd].
  pose proof (add_vector_saved _ _ _ _ _ _ _ Hadd Hr) as Hsave.
  unfold synced. rewrite (load_saved self' fs fs'); [done| |done].
  by rewrite Hi, Hd.
Qed.

Lemma clear_synced self fs r self' fs' :
  clear self fs = (r, self', fs') -> synced self' fs'.
Proof.
  destruct (clear_spec self fs) as (fs1 & -> & Hi & _).
  intros [= <- <- <-]. unfold synced. simpl.
  by destruct (load_existing_missing _ (data_file self) _ Hi) as [e ->].
Qed.

(** A restart of a synced store finds the vectors and documents it held. *)
Lemma restart_synced self fs dim :
  synced self fs ->
  let self' := __init__ dim (index_file self) (data_file self) fs in
  Faiss.xb (index self') = Faiss.xb (index self) /\
  documents self' = documents self /\
  (Faiss.xb (index self) <> [] -> index self' = index self).
Proof.
  unfold synced. simpl. rewrite init_load.
  destruct (load_existing _ _ fs) as [[idx docs]|e]; simpl.
  - by intros [-> ->].
  - by intros [-> ->].
Qed.

Lemma restart_search self fs dim q k :
  synced self fs ->
  search (__init__ dim (index_file self) (data_file self) fs) q k = search self q k.
Proof.
  intros Hs. destruct (restart_synced self fs dim Hs) as (Hxb & Hdocs & Hidx).
  destruct (Faiss.xb (index self)) as [|x xs] eqn:E.
  - by rewrite !search_empty.
  - apply search_ext; [|done]. by apply Hidx.
Qed.

Lemma add_all_synced adds : forall self fs self' fs',
  index_file self <> data_file self ->
  synced self fs ->
  add_all self fs adds = Some (self', fs') ->
  synced self' fs' /\
  index_file self' = index_file self /\ data_file self' = data_file self.
Proof.
  induction adds as [|[vector doc] adds IH]; intros self fs self' fs' Hne Hs; simpl.
  - by intros [= <- <-].
  - destruct (add_vector self vector doc fs) as [[[[]|e] s1] fs1] eqn:E; [|done].
    intros Hrest.
    destruct (add_vector_files _ _ _ _ _ _ _ E) as [Hi Hd].
    destruct (IH s1 fs1 self' fs') as (? & Hi' & Hd'); [congruence| |done|].
    + eapply add_vector_synced; eauto.
    + split; [done|]. split; congruence.
Qed.

(** *** Reachable states *)

Lemma reachable_inv ifile dfile pairs self fs :
  reachable ifile dfile pairs self fs ->
  index_file self = ifile /\ data_file self = dfile /\
  Faiss.xb (index self) = pairs.*1 /\ documents self = pairs.*2.
Proof.
  assert (forall ps s0 fs0 vector doc r s1 fs1,
            index_file s0 = ifile /\ data_file s0 = dfile /\
            Faiss.xb (index s0) = ps.*1 /\ documents s0 = ps.*2 ->
            add_vector s0 vector doc fs0 = (r, s1, fs1) ->
            r <> Raise AssertionError ->
            index_file s1 = ifile /\ data_file s1 = dfile /\
            Faiss.xb (index s1) = (ps ++ [(vector, doc)]).*1 /\
            documents s1 = (ps ++ [(vector, doc)]).*2) as Happ.
  { intros ps s0 fs0 vector doc r s1 fs1 (Hi & Hd & Hxb & Hdocs) Hadd Hr.
    rewrite (add_vector_appends _ _ _ _ _ _ _ Hadd Hr). simpl.
    by rewrite !fmap_app, Hxb, Hdocs. }
  intros Hreach. induction Hreach as
    [ dim fs Hfs self
    | pairs self fs vector doc self' fs' _ IH Hadd
    | pairs self fs vector doc key self' fs' _ IH Hadd
    | pairs self fs vector doc self' fs' _ (Hi & Hd & Hxb & Hdocs) Hadd
    | pairs self fs vector doc e self' fs' _ IH Hadd He
    | pairs self fs r self' fs' _ (Hi & Hd & Hxb & Hdocs) Hclear ].
  - destruct (init_files dim ifile dfile fs) as [Hi Hd].
    split; [done|]. split; [done|].
    assert (length (Faiss.xb (index self)) = length (documents self)) as Hlen.
    { subst self. rewrite init_load.
      destruct (load_existing ifile dfile fs) as [[idx docs]|e] eqn:E; [|done].
      simpl. by apply Hfs. }
    split; symmetry; [apply fst_zip | apply snd_zip]; lia.
  - by eapply Happ.
  - by eapply Happ.
  - by apply add_vector_rejected in Hadd as [-> ->].
  - eapply Happ; [done..|]. by destruct He as [-> | ->].
  - destruct (clear_spec self fs) as (fs1 & Hc & _).
    rewrite Hc in Hclear. by injection Hclear as _ <- <-.
Qed.

(** C1, as the code has it. In every state of a store reached from an
    [__init__] over artifacts that, when both load, hold as many vectors as
    documents (fresh or loaded), through [add_vector] calls and [clear]
    calls, the index holds as many vectors as the document list holds
    documents, and the vector at position [i] is the one that was added
    together with the document at position [i]. *)
Theorem index_parallel_to_documents ifile dfile pairs self fs :
  reachable ifile dfile pairs self fs ->
  Faiss.ntotal (index self) = length (documents self) /\
  forall i vector doc,
    pairs !! i = Some (vector, doc) <->
    Faiss.xb (index self) !! i = Some vector /\ documents self !! i = Some doc.
Proof.
  intros Hr.
  destruct (reachable_inv _ _ _ _ _ Hr) as (_ & _ & Hxb & Hdocs).
  split.
  - unfold Faiss.ntotal. by rewrite Hxb, Hdocs, !length_fmap.
  - intros i vector doc. rewrite Hxb, Hdocs, !list_lookup_fmap.
    destruct (pairs !! i) as [[v' d']|]; simpl.
    + split; [by intros [= -> ->] | intros [H1 H2]; congruence].
    + split; [done | by intros [? ?]].
Qed.

Lemma index_parallel_to_documents_witness :
  exists self fs,
    reachable "vector_index.faiss" "vector_data.pkl"
      [([1; 0]%Q, doc_a); ([0; 1]%Q, doc_b)] self fs /\
    Faiss.ntotal (index self) = 2 /\
    Faiss.ntotal (index self) = length (documents self) /\
    forall i vector doc,
      [([1; 0]%Q, doc_a); ([0; 1]%Q, doc_b)] !! i = Some (vector, doc) <->
      Faiss.xb (index self) !! i = Some vector /\ documents self !! i = Some doc.
Proof.
  set (ifile := "vector_index.faiss"). set (dfile := "vector_data.pkl").
  set (r1 := add_vector first_start [1; 0]%Q doc_a ∅).
  set (r2 := add_vector r1.1.2 [0; 1]%Q doc_b r1.2).
  assert (reachable ifile dfile [([1; 0]%Q, doc_a); ([0; 1]%Q, doc_b)]
            r2.1.2 r2.2) as Hr.
  { apply (reach_add ifile dfile [([1; 0]%Q, doc_a)] r1.1.2 r1.2 [0; 1]%Q doc_b);
      [|reflexivity].
    apply (reach_add ifile dfile [] first_start ∅ [1; 0]%Q doc_a); [|reflexivity].
    assert (consistent_artifacts ifile dfile ∅) as Hc by (by intros idx docs).
    exact (reach_init ifile dfile 2 ∅ Hc). }
  exists r2.1.2, r2.2.
  split; [exact Hr|]. split; [reflexivity|].
  exact (index_parallel_to_documents ifile dfile _ _ _ Hr).
Defined.

(** C1 as stated fails for a loaded store: [__init__] checks no count, and
    over an index file with one vector and a data file with no document
    it gives a store with one vector and no document. *)
Lemma stale_artifacts_loaded :
  exists_ stale_data "vector_index.faiss" = true /\
  exists_ stale_data "vector_data.pkl" = true /\
  Faiss.ntotal (index (__init__ 2 "vector_index.faiss" "vector_data.pkl" stale_data)) = 1 /\
  length (documents (__init__ 2 "vector_index.faiss" "vector_data.pkl" stale_data)) = 0 /\
  Faiss.ntotal (index (__init__ 2 "vector_index.faiss" "vector_data.pkl" stale_data))
  <> length (documents (__init__ 2 "vector_index.faiss" "vector_data.pkl" stale_data)).
Proof. split_and!; try reflexivity. by vm_compute. Qed.

(** *** Restart *)

(** C3. After any sequence of [add_vector] calls that all return normally,
    a fresh store constructed against the same two files answers every
    [search] as the running store does: the same documents, in the same
    order, with the same scores (or the same exception). The index
    artifact and the document artifact are distinct files. *)
Theorem search_survives_restart dim dim' ifile dfile fs0 adds self fs q k :
  ifile <> dfile ->
  add_all (__init__ dim ifile dfile fs0) fs0 adds = Some (self, fs) ->
  search (__init__ dim' ifile dfile fs) q k = search self q k.
Proof.
  intros Hne Hadds.
  destruct (init_files dim ifile dfile fs0) as [Hi Hd].
  destruct (add_all_synced adds _ _ _ _ ltac:(by rewrite Hi, Hd)
              (init_synced dim ifile dfile fs0) Hadds) as (Hs & Hi' & Hd').
  rewrite Hi in Hi'. rewrite Hd in Hd'. rewrite <-Hi', <-Hd'.
  by apply restart_search.
Qed.

Lemma search_survives_restart_witness :
  exists self fs,
    two_adds = Some (self, fs) /\
    returns_ranking (search self [1; 0]%Q 2) [("a", 1); ("b", 0)]%Q /\
    search (__init__ 2 "vector_index.faiss" "vector_data.pkl" fs) [1; 0]%Q 2
    = search self [1; 0]%Q 2.
Proof.
  destruct two_adds as [[self fs]|] eqn:E; [|discriminate E].
  exists self, fs. split; [reflexivity|]. split.
  - injection E as <- <-. repeat constructor; by eexists.
  - exact (search_survives_restart 2 2 "vector_index.faiss" "vector_data.pkl" ∅
             _ self fs [1; 0]%Q 2 ltac:(done) E).
Defined.

(** *** Dimension *)

(** The index of a fresh or cleared store has the configured dimension; a
    loaded index keeps its own. *)
Lemma fresh_dimension (self : FAISSVectorDB) :
  Faiss.d (index (_create_new_index self)) = dimension self.
Proof. reflexivity. Qed.

(** C2, as the code has it. A vector whose length is not the dimension of
    the store's index makes [add_vector] fail with the index's assertion
    error, store and disk unchanged. [search] fails the same way when the
    store holds a vector; on an empty store it returns the empty list and
    does not look at the query. *)
Theorem wrong_dimension_rejected self vector doc fs k :
  length vector <> Faiss.d (index self) ->
  add_vector self vector doc fs = (Raise AssertionError, self, fs) /\
  search self vector k =
    if decide (Faiss.ntotal (index self) = 0) then Ok [] else Raise AssertionError.
Proof.
  intros Hlen. split.
  - rewrite add_vector_spec. simpl. by rewrite decide_False.
  - unfold search, astype_float32. case_decide; [done|].
    by rewrite FaissFacts.search_rejects.
Qed.

Lemma wrong_dimension_rejected_witness :
  length [1; 0; 0]%Q <> Faiss.d (index one_vector.1) /\
  add_vector one_vector.1 [1; 0; 0]%Q doc_b one_vector.2
  = (Raise AssertionError, one_vector.1, one_vector.2) /\
  search one_vector.1 [1; 0; 0]%Q 5 = Raise AssertionError.
Proof.
  assert (length [1; 0; 0]%Q <> Faiss.d (index one_vector.1)) as Hlen
    by (vm_compute; lia).
  split; [exact Hlen|].
  exact (wrong_dimension_rejected one_vector.1 [1; 0; 0]%Q doc_b one_vector.2 5 Hlen).
Defined.

(** C2 as stated fails: on the empty store of dimension 2, [search] with a
    vector of length 1 returns the empty list. *)
Lemma search_wrong_dimension_on_empty_store :
  length [1%Q] <> dimension (__init__ 2 "vector_index.faiss" "vector_data.pkl" ∅) /\
  length [1%Q] <> Faiss.d (index (__init__ 2 "vector_index.faiss" "vector_data.pkl" ∅)) /\
  search (__init__ 2 "vector_index.faiss" "vector_data.pkl" ∅) [1%Q] 5 = Ok [].
Proof. split; [vm_compute; lia|]. split; [vm_compute; lia|]. reflexivity. Qed.

(** *** Loading *)

(** C5. [__init__] returns a store in every case, and when an artifact is
    missing, or reading the index or unpickling the documents raises, the
    store is the fresh empty one of the given dimension: [_create_new_index]
    gives the object its index where it had none, and replaces the index
    that was read when the data file does not unpickle. *)
Theorem init_recovers_from_load_failure dim ifile dfile fs :
  fs !! ifile = None \/ fs !! dfile = None \/
  (exists e, read_index fs ifile = Raise e) \/
  (exists e, pickle_load fs dfile = Raise e) ->
  __init__ dim ifile dfile fs = fresh dim ifile dfile /\
  dimension (__init__ dim ifile dfile fs) = dim /\
  Faiss.d (index (__init__ dim ifile dfile fs)) = dim /\
  Faiss.ntotal (index (__init__ dim ifile dfile fs)) = 0 /\
  documents (__init__ dim ifile dfile fs) = [].
Proof.
  intros H.
  assert (__init__ dim ifile dfile fs = fresh dim ifile dfile) as ->; [|done].
  rewrite init_load.
  destruct (load_existing ifile dfile fs) as [[idx docs]|e] eqn:E; [|done].
  pose proof E as E'. apply load_existing_exists in E' as [Hi Hd].
  unfold load_existing in E.
  destruct H as [H|[H|[[e H]|[e H]]]]; try congruence.
  - by rewrite H in E.
  - destruct (read_index fs ifile); [|done]. by rewrite H in E.
Qed.

Lemma init_recovers_from_load_failure_witness :
  read_index corrupt_data "vector_index.faiss"
  = Ok {| Faiss.d := 2; Faiss.xb := [[1; 0]%Q] |} /\
  (exists e, pickle_load corrupt_data "vector_data.pkl" = Raise e) /\
  __init__ 3 "vector_index.faiss" "vector_data.pkl" corrupt_data
  = fresh 3 "vector_index.faiss" "vector_data.pkl".
Proof.
  assert (exists e, pickle_load corrupt_data "vector_data.pkl" = Raise e) as H
    by (by exists UnpicklingError).
  split; [reflexivity|]. split; [exact H|].
  exact (proj1 (init_recovers_from_load_failure 3 "vector_index.faiss"
                  "vector_data.pkl" corrupt_data (or_intror (or_intror (or_intror H))))).
Defined.

(** *** Clearing *)

(** C6. [clear] never raises, and a second [clear] right after the first
    does not raise either and changes nothing: the store is the empty one
    of the same dimension and neither file exists. *)
Theorem clear_idempotent self fs :
  exists self1 fs1,
    clear self fs = (Ok tt, self1, fs1) /\
    clear self1 fs1 = (Ok tt, self1, fs1) /\
    dimension self1 = dimension self /\
    Faiss.d (index self1) = dimension self /\
    Faiss.ntotal (index self1) = 0 /\
    documents self1 = [] /\
    exists_ fs1 (index_file self) = false /\
    exists_ fs1 (data_file self) = false.
Proof.
  destruct (clear_spec self fs) as (fs1 & Hclear & Hi & Hd).
  exists (_create_new_index self), fs1. split; [exact Hclear|].
  split; [exact (clear_nothing (_create_new_index self) fs1 Hi Hd)|]. done.
Qed.

(** *** Documents without an id *)

(** C10, as the code has it. [add_vector] with a vector of the index's
    dimension and a document that has no ["id"] raises, and does so after
    the vector and the document were appended: the store is not what it
    was. When both files can be written the exception is [KeyError] for
    ["id"], raised after both writes: the data file holds the new document
    list and the index file, when it is another file, the new index. When
    the index file cannot be written the exception is the [RuntimeError]
    of [write_index] and the disk is what it was; when the data file alone
    cannot be written the exception is the one of [open] and the index
    file alone was written. *)
Theorem add_without_id_fails_after_appending self vector doc fs :
  length vector = Faiss.d (index self) ->
  dict_get "id" doc = None ->
  exists e self' fs',
    add_vector self vector doc fs = (Raise e, self', fs') /\
    Faiss.xb (index self') = Faiss.xb (index self) ++ [vector] /\
    documents self' = documents self ++ [doc] /\
    self' <> self /\
    (writable fs (index_file self) = true ->
     writable fs (data_file self) = true ->
     e = KeyError "id" /\
     fs' = <[data_file self := PickleFile (documents self')]>
             (<[index_file self := FaissIndexFile (index self')]> fs) /\
     fs' !! data_file self = Some (PickleFile (documents self')) /\
     (index_file self <> data_file self ->
      fs' !! index_file self = Some (FaissIndexFile (index self')))) /\
    (writable fs (index_file self) = false ->
     e = RuntimeError /\ fs' = fs) /\
    (writable fs (index_file self) = true ->
     writable fs (data_file self) = false ->
     e = FileNotFoundError /\
     fs' = <[index_file self := FaissIndexFile (index self')]> fs).
Proof.
  intros Hlen Hid.
  set (self' := {| dimension := dimension self; index_file := index_file self;
                   data_file := data_file self;
                   index := {| Faiss.d := Faiss.d (index self);
                               Faiss.xb := Faiss.xb (index self) ++ [vector] |};
                   documents := documents self ++ [doc] |}).
  assert (self' <> self) as Hchanged.
  { intros Heq. apply (f_equal (fun s => length (documents s))) in Heq.
    simpl in Heq. rewrite length_app in Heq. simpl in Heq. lia. }
  pose proof (add_vector_spec self vector doc fs) as Hadd. simpl in Hadd.
  rewrite decide_True, Hid in Hadd by done. fold self' in Hadd.
  rewrite save_spec in Hadd. simpl in Hadd.
  destruct (writable fs (index_file self)) eqn:Ei.
  - destruct (decide (index_file self = data_file self)) as [Heq|Hne].
    + rewrite bool_decide_eq_true_2 in Hadd by done. simpl in Hadd.
      assert (writable fs (data_file self) = true) as Ed by (by rewrite <-Heq).
      eexists _, self', _. split; [exact Hadd|].
      split_and!; try done.
      * intros _ _. split_and!; try done. by rewrite lookup_insert_eq.
      * intros _ Hd. by rewrite Hd in Ed.
    + rewrite bool_decide_eq_false_2 in Hadd by done. simpl in Hadd.
      destruct (writable fs (data_file self)) eqn:Ed.
      * eexists _, self', _. split; [exact Hadd|].
        split_and!; try done.
        intros _ _. split_and!; try done.
        -- by rewrite lookup_insert_eq.
        -- intros _. by rewrite lookup_insert_ne, lookup_insert_eq.
      * eexists _, self', _. split; [exact Hadd|].
        split_and!; done.
  - eexists _, self', _. split; [exact Hadd|].
    split_and!; done.
Qed.

Lemma add_without_id_fails_after_appending_witness :
  exists self' fs',
    add_vector first_start [1; 0]%Q doc_without_id ∅
    = (Raise (KeyError "id"), self', fs') /\
    Faiss.xb (index self') = [[1; 0]%Q] /\
    documents self' = [doc_without_id] /\
    fs' !! "vector_index.faiss" = Some (FaissIndexFile (index self')) /\
    fs' !! "vector_data.pkl" = Some (PickleFile (documents self')).
Proof.
  destruct (add_without_id_fails_after_appending first_start [1; 0]%Q
              doc_without_id ∅ eq_refl eq_refl)
    as (e & self' & fs' & Hadd & Hxb & Hdocs & _ & Hsaved & _).
  destruct (Hsaved eq_refl eq_refl) as (-> & _ & Hd & Hi).
  exists self', fs'. split; [exact Hadd|].
  split; [exact Hxb|]. split; [exact Hdocs|].
  split; [apply Hi; by vm_compute | exact Hd].
Defined.

(** C10 as stated fails where the files cannot be written: in a directory
    that does not exist [write_index] raises before anything is on disk,
    and the error is not the one about the id. *)
Lemma add_without_id_on_unwritable_path :
  length [1; 0]%Q = Faiss.d (index store_in_missing_dir) /\
  dict_get "id" doc_without_id = None /\
  exists self',
    add_vector store_in_missing_dir [1; 0]%Q doc_without_id missing_dir
    = (Raise RuntimeError, self', missing_dir) /\
    documents self' = [doc_without_id] /\
    exists_ missing_dir (index_file store_in_missing_dir) = false /\
    exists_ missing_dir (data_file store_in_missing_dir) = false /\
    (forall idx, missing_dir !! index_file store_in_missing_dir
                 <> Some (FaissIndexFile idx)) /\
    (forall docs, missing_dir !! data_file store_in_missing_dir
                  <> Some (PickleFile docs)).
Proof.
  split; [reflexivity|]. split; [reflexivity|].
  eexists. split; [reflexivity|]. split_and!; try reflexivity.
  - intros idx. by vm_compute.
  - intros docs. by vm_compute.
Qed.

(** *** Ranking *)






End DatabaseFacts.

(** ** The retry loop *)
Module LLMFacts.
Import LLM.

(** C7, as the code has it. When building the context does not raise,
    [generate_answer_from_results] invokes the collaborator until it
    succeeds, at most 3 times, sleeps 2 seconds after the first failure and
    4 seconds after the second, and does not sleep after the third; it
    returns the first answer, or after three failures the string that
    embeds the third error, and never raises. *)
Theorem generate_answer_retries create results :
  build_context results = Ok tt ->
  generate_answer_from_results create results =
    match create 0, create 1, create 2 with
    | Answer answer, _, _ =>
        (Ok (Some answer), {| calls := 1; sleeps := [] |})
    | Failure _, Answer answer, _ =>
        (Ok (Some answer), {| calls := 2; sleeps := [2]%Z |})
    | Failure _, Failure _, Answer answer =>
        (Ok (Some answer), {| calls := 3; sleeps := [2; 4]%Z |})
    | Failure _, Failure _, Failure e =>
        (Ok (Some ("Error generating answer: " +:+ e)),
         {| calls := 3; sleeps := [2; 4]%Z |})
    end.
Proof.
  intros Hctx. unfold generate_answer_from_results. rewrite Hctx.
  unfold max_retries. simpl.
  destruct (create 0); [done|]. simpl.
  destruct (create 1); [done|]. simpl.
  by destruct (create 2).
Qed.

Lemma generate_answer_retries_witness :
  build_context one_result = Ok tt /\
  generate_answer_from_results third_time_lucky one_result
  = (Ok (Some "forty-two"), {| calls := 3; sleeps := [2; 4]%Z |}) /\
  generate_answer_from_results always_failing one_result
  = (Ok (Some "Error generating answer: failure 2"),
     {| calls := 3; sleeps := [2; 4]%Z |}).
Proof.
  split; [reflexivity|]. split.
  - exact (generate_answer_retries third_time_lucky one_result eq_refl).
  - exact (generate_answer_retries always_failing one_result eq_refl).
Defined.

(** C7 as stated fails on the delays: when all three invocations fail, the
    loop has slept 2 and 4 seconds and never 8. *)
Lemma no_third_delay :
  sleeps (generate_answer_from_results always_failing one_result).2 = [2; 4]%Z /\
  sleeps (generate_answer_from_results always_failing one_result).2 <> [2; 4; 8]%Z /\
  ~ In 8%Z (sleeps (generate_answer_from_results always_failing one_result).2) /\
  sleeps (generate_answer_from_results third_time_lucky one_result).2 = [2; 4]%Z.
Proof.
  split; [reflexivity|]. split; [by vm_compute|]. split; [|reflexivity].
  vm_compute. intros [H|[H|[]]]; discriminate H.
Qed.

End LLMFacts.

(** ** The JSON normalizer *)
Module ProcessorsFacts.
Import Processors.

(** What [process_json] emits for the element at position [i] of a
    top-level list. *)
Lemma list_item_lookup float_repr items i item :
  items !! i = Some item ->
  documents_of float_repr (PList items) !! i =
    Some [("id", PStr ("json_" +:+ pretty i));
          ("text", PStr (if is_dict item then json_dumps float_repr item
                         else py_str float_repr item));
          ("metadata", PDict [("source", PStr "json");
                              ("index", PInt (Z.of_nat i));
                              ("original", item)])].
Proof.
  intros H. simpl. rewrite list_lookup_imap, H. simpl.
  unfold list_item_document. by destruct (is_dict item).
Qed.

Lemma list_documents_length float_repr items :
  length (documents_of float_repr (PList items)) = length items.
Proof. simpl. apply length_imap. Qed.

(** C8 on the input [[[true, null]]]: the element is a sequence, and its
    text is not its JSON form [[true, null]] but its [str], [[True, None]].
    The same value under a key of a top-level mapping gets its JSON form. *)
Theorem nested_list_item_text float_repr :
  documents_of float_repr (PList [PList [PBool true; PNone]])
  = [[("id", PStr "json_0");
      ("text", PStr "[True, None]");
      ("metadata", PDict [("source", PStr "json");
                          ("index", PInt 0);
                          ("original", PList [PBool true; PNone])])]] /\
  json_dumps float_repr (PList [PBool true; PNone]) = "[true, null]" /\
  documents_of float_repr (PDict [("k", PList [PBool true; PNone])])
  = [[("id", PStr "json_k");
      ("text", PStr "[true, null]");
      ("metadata", PDict [("source", PStr "json");
                          ("key", PStr "k");
                          ("original", PList [PBool true; PNone])])]].
Proof. split; [reflexivity|]. split; reflexivity. Qed.

End ProcessorsFacts.

(** ** Copies and aliases *)
Module SharedFacts.
Import Shared.

Lemma copy_then_set h o k v :
  setitem (copy h o).2 (copy h o).1 k v = h ++ [dict_set k v o].
Proof.
  unfold copy, setitem. cbn [fst snd].
  rewrite alter_app_r_alt by lia. by rewrite Nat.sub_diag.
Qed.

Lemma returned_copy_grow documents before after new l :
  returned_copy documents before after l ->
  returned_copy documents before (after ++ new) l.
Proof.
  intros (Hl & idx & l0 & stored & x & Hidx & Hl0 & Hafter).
  split; [done|]. exists idx, l0, stored, x.
  split_and!; try done. by apply lookup_app_l_Some.
Qed.

Lemma search_results_spec documents before hits :
  Forall (fun l => l < length before) documents ->
  forall new results r after,
    search_results (before ++ new) documents hits results = (r, after) ->
    (exists new', after = before ++ new') /\
    forall res,
      r = Ok res ->
      Forall (returned_copy documents before (before ++ new)) results ->
      Forall (returned_copy documents before after) res.
Proof.
  intros Hdocs. induction hits as [|[dist idx|] hits IH];
    intros new results r after; simpl.
  - intros [= <- <-]. split; [by exists new|]. by intros res [= <-].
  - destruct (documents !! idx) as [l0|] eqn:Hidx.
    2:{ intros [= <- <-]. split; [by exists new|]. by intros res. }
    assert (l0 < length before) as Hl0
      by (eapply Forall_lookup_1 in Hdocs; done).
    rewrite lookup_app_l by done.
    destruct (before !! l0) as [stored|] eqn:Hstored.
    2:{ intros [= <- <-]. split; [by exists new|]. by intros res. }
    pose proof (copy_then_set (before ++ new) stored "similarity_score"
                  (VAtom (AFloat (1 - dist / 2)%Q))) as Hset.
    cbn [copy fst snd] in Hset. cbn [copy]. rewrite Hset.
    set (doc := dict_set "similarity_score" _ stored).
    rewrite (list_lookup_middle (before ++ new) [] doc _ eq_refl). simpl.
    destruct (dict_get "id" doc) as [id|] eqn:Hid.
    + rewrite <-app_assoc. intros Hrest.
      destruct (IH _ _ _ _ Hrest) as [Hgrow Hres].
      split; [done|]. intros res -> Hresults. apply Hres; [done|].
      apply Forall_app. split.
      * eapply Forall_impl; [exact Hresults|]. intros l Hl.
        rewrite app_assoc. by apply returned_copy_grow.
      * apply Forall_singleton. split; [rewrite length_app; lia|].
        exists idx, l0, stored, (1 - dist / 2)%Q. split_and!; try done.
        rewrite app_assoc.
        apply (list_lookup_middle (before ++ new) [] doc _ eq_refl).
    + intros [= <- <-]. split; [|by intros res].
      exists (new ++ [doc]). by rewrite app_assoc.
  - apply IH.
Qed.

(** C9, as the code has it. [search] assigns to no attribute of the store
    and leaves every object that was on the heap as it was: no stored
    document gets a score. Every document it returns is a new object (no
    alias of a stored one) holding the bindings of a stored document and
    the score, so an assignment to a key of a returned document leaves all
    earlier objects as they were. The copy is shallow: what a returned
    document binds to a key is what the stored document binds to it, the
    same object when that is one. *)
Theorem search_returns_shallow_copies h self q k :
  Forall (fun l => l < length h) (documents self) ->
  take (length h) (search h self q k).2 = h /\
  forall res,
    (search h self q k).1 = Ok res ->
    Forall (fun l =>
              returned_copy (documents self) h (search h self q k).2 l /\
              (forall key v,
                 take (length h) (setitem (search h self q k).2 l key v) = h) /\
              (forall key o,
                 key <> "similarity_score" ->
                 (search h self q k).2 !! l = Some o ->
                 exists l0 stored,
                   l0 ∈ documents self /\ h !! l0 = Some stored /\
                   dict_get key o = dict_get key stored)) res.
Proof.
  intros Hdocs.
  assert ((exists new, (search h self q k).2 = h ++ new) /\
          forall res, (search h self q k).1 = Ok res ->
                      Forall (returned_copy (documents self) h (search h self q k).2) res)
    as [[new Hnew] Hres].
  { unfold search. case_decide.
    { simpl. split; [exists []; by rewrite app_nil_r|]. by intros res [= <-]. }
    destruct (Faiss.search _ _ _) as [hits|e].
    2:{ simpl. split; [exists []; by rewrite app_nil_r|]. done. }
    destruct (search_results h (documents self) hits []) as [r after] eqn:E.
    rewrite <-(app_nil_r h) in E at 1.
    destruct (search_results_spec _ _ _ Hdocs _ _ _ _ E) as [Hgrow Hres].
    simpl. split; [done|]. intros res ->. by apply Hres. }
  split; [rewrite Hnew; apply take_app_length|].
  intros res Hr. specialize (Hres res Hr).
  eapply Forall_impl; [exact Hres|]. simpl. intros l Hl.
  split; [done|]. destruct Hl as (Hfresh & idx & l0 & stored & x & Hidx & Hl0 & Hl).
  split.
  - intros key v. unfold setitem. rewrite take_alter_ge by done.
    rewrite Hnew. apply take_app_length.
  - intros key o Hkey Ho. rewrite Hl in Ho. injection Ho as <-.
    exists l0, stored. split_and!; try done.
    + by eapply list_elem_of_lookup_2.
    + by apply dict_get_set_ne.
Qed.

Lemma search_returns_shallow_copies_witness :
  Forall (fun l => l < length heap_a) (documents store_a) /\
  (search heap_a store_a [0]%Q 1).1 = Ok [2] /\
  take (length heap_a) (search heap_a store_a [0]%Q 1).2 = heap_a /\
  take (length heap_a)
    (setitem (search heap_a store_a [0]%Q 1).2 2 "text" (VAtom (AStr "edited")))
  = heap_a.
Proof.
  assert (Forall (fun l => l < length heap_a) (documents store_a)) as Hdocs
    by (repeat constructor).
  destruct (search_returns_shallow_copies heap_a store_a [0]%Q 1 Hdocs)
    as [Hframe Hres].
  specialize (Hres [2] eq_refl).
  apply Forall_singleton in Hres as (_ & Hset & _).
  split; [exact Hdocs|]. split; [reflexivity|]. split; [exact Hframe|].
  apply Hset.
Defined.

(** C9 as stated fails on the metadata: the document [search] returns binds
    ["metadata"] to the object the stored document binds it to, and an
    assignment into it through the returned document changes the metadata
    of the stored one. *)
Lemma mutation_through_returned_metadata :
  documents store_a = [1] /\
  heap_a !! 1 ≫= dict_get "metadata" = Some (VRef 0) /\
  heap_a !! 0 = Some [("source", VAtom (AStr "json"))] /\
  (search heap_a store_a [0]%Q 1).1 = Ok [2] /\
  (search heap_a store_a [0]%Q 1).2 !! 2 ≫= dict_get "metadata" = Some (VRef 0) /\
  setitem_in (search heap_a store_a [0]%Q 1).2 2 "metadata" "source"
    (VAtom (AStr "edited")) !! 0
  = Some [("source", VAtom (AStr "edited"))] /\
  take (length heap_a)
    (setitem_in (search heap_a store_a [0]%Q 1).2 2 "metadata" "source"
       (VAtom (AStr "edited")))
  <> heap_a.
Proof. split_and!; try reflexivity. by vm_compute. Qed.

End SharedFacts.

(** ** More on the store *)
Module DatabaseMore.
Import Database Lifecycle DatabaseFacts Vocabulary.

(** *** How many results *)

Lemma search_results_length documents hits results res :
  search_results documents hits results = Ok res ->
  length res <= length results + length hits.
Proof.
  revert results. induction hits as [|[dist idx|] hits IH]; intros results; simpl.
  - intros [= <-]. lia.
  - destruct (documents !! idx) as [stored|]; [|done].
    destruct (dict_get "id" _); [|done].
    intros H. apply IH in H. rewrite length_app in H. simpl in H. lia.
  - intros H. apply IH in H. lia.
Qed.

(** X1. Whatever the store holds, a [search] that returns gives at most [k]
    documents and at most as many as the index holds vectors. *)
Theorem search_at_most_k self q k res :
  search self q k = Ok res ->
  length res <= Z.to_nat k /\ length res <= Faiss.ntotal (index self).
Proof.
  unfold search, astype_float32. case_decide as Hn.
  { intros [= <-]. simpl. lia. }
  unfold Faiss.search. case_decide; [|done]. case_decide as Hk; [|done].
  unfold mbind, result_bind. intros Hres. apply search_results_length in Hres.
  rewrite length_app, length_map, length_take, length_replicate,
    FaissFacts.length_ranked in Hres. simpl in Hres. lia.
Qed.

Lemma search_at_most_k_witness :
  exists res,
    search on_a_line [0]%Q 2 = Ok res /\
    length res <= Z.to_nat 2 /\ length res <= Faiss.ntotal (index on_a_line).
Proof.
  eexists. split; [reflexivity|].
  exact (search_at_most_k on_a_line [0]%Q 2 _ eq_refl).
Defined.

(** *** A store in good shape *)

(** [search] on a store with as many documents as vectors, each with an
    ["id"]: the documents of the nearest vectors, scored. *)
Lemma search_in_shape self q k :
  Faiss.ntotal (index self) <> 0 ->
  length q = Faiss.d (index self) ->
  (0 < k)%Z ->
  length (documents self) = Faiss.ntotal (index self) ->
  Forall (fun doc => is_Some (dict_get "id" doc)) (documents self) ->
  search self q k =
    Ok (map (scored (documents self))
          (take (Z.to_nat (Z.min k (Z.of_nat (Faiss.ntotal (index self)))))
                (Faiss.ranked (index self) q))).
Proof.
  intros Hn Hq Hk Hlen Hids. unfold search, astype_float32. rewrite decide_False by done.
  rewrite FaissFacts.search_within by lia. unfold mbind, result_bind.
  rewrite search_results_ok; [done|].
  apply Forall_forall. intros h Hin.
  apply elem_of_take in Hin as (i & Hin & _).
  apply list_elem_of_lookup_2 in Hin.
  apply FaissFacts.elem_of_ranked in Hin as (x & Hx & _).
  destruct (lookup_lt_is_Some_2 (documents self) (snd h)) as [doc Hdoc].
  { rewrite Hlen. by eapply lookup_lt_Some. }
  exists doc. split; [done|]. eapply Forall_lookup_1 in Hids; done.
Qed.

(** X19. On a store that holds a vector, with as many documents as
    vectors, each with an ["id"], a [search] with a query of the index's
    dimension and [k > 0] returns [min(k, ntotal)] documents. The query and
    the stored vectors are in the range where float32 is exact, so that
    the index has a finite distance, and with it a label, for every
    vector. *)
Theorem search_returns_min_k_ntotal self q k :
  Faiss.ntotal (index self) <> 0 ->
  length q = Faiss.d (index self) ->
  Faiss.float32_exact (index self) q = true ->
  (0 < k)%Z ->
  length (documents self) = Faiss.ntotal (index self) ->
  Forall (fun doc => is_Some (dict_get "id" doc)) (documents self) ->
  exists res,
    search self q k = Ok res /\
    length res = Z.to_nat (Z.min k (Z.of_nat (Faiss.ntotal (index self)))).
Proof.
  intros Hn Hq _ Hk Hlen Hids. eexists. split; [by apply search_in_shape|].
  rewrite length_map, length_take, FaissFacts.length_ranked. lia.
Qed.

Lemma search_returns_min_k_ntotal_witness :
  exists res,
    search on_a_line [0]%Q 2 = Ok res /\ length res = 2 /\
    exists res',
      search on_a_line [0]%Q 7 = Ok res' /\ length res' = 3.
Proof.
  destruct (search_returns_min_k_ntotal on_a_line [0]%Q 2)
    as (res & Hres & Hlen); [by vm_compute|reflexivity|reflexivity|lia|
                             reflexivity|repeat constructor; by eexists|].
  exists res. split; [exact Hres|]. split; [exact Hlen|].
  eexists. split; reflexivity.
Defined.

(** *** Searching for what was added *)

Lemma fvec_L2sqr_nonneg x y : (0 <= Faiss.fvec_L2sqr x y)%Q.
Proof.
  unfold Faiss.fvec_L2sqr. revert y.
  induction x as [|a x IH]; intros [|b y]; simpl; try done.
  assert (0 <= (a - b) * (a - b))%Q as Hsq.
  { destruct (Qlt_le_dec (a - b) 0) as [Hneg|Hpos].
    - setoid_replace ((a - b) * (a - b))%Q with ((- (a - b)) * (- (a - b)))%Q
        using relation Qeq by ring.
      apply Qmult_le_0_compat; apply (Qopp_le_compat (a - b) 0); by apply Qlt_le_weak.
    - by apply Qmult_le_0_compat. }
  specialize (IH y).
  apply (Qplus_le_compat 0 _ 0 _ Hsq IH).
Qed.

Lemma fvec_L2sqr_self x : (Faiss.fvec_L2sqr x x == 0)%Q.
Proof.
  unfold Faiss.fvec_L2sqr. induction x as [|a x IH]; simpl; [done|].
  rewrite IH. ring.
Qed.

(** The head of the ranking is as near as any stored vector. *)
Lemma ranked_head_nearest idx q h rest i x :
  Faiss.ranked idx q = h :: rest ->
  Faiss.xb idx !! i = Some x ->
  (fst h <= Faiss.fvec_L2sqr q x)%Q.
Proof.
  intros Hr Hx.
  pose proof (FaissFacts.ranked_sorted idx q) as Hs.
  apply Sorted_StronglySorted in Hs;
    [|intros a b c; unfold Faiss.nearer; apply Qle_trans].
  assert ((Faiss.fvec_L2sqr q x, i) ∈ Faiss.ranked idx q) as Hin.
  { unfold Faiss.ranked. rewrite FaissFacts.sort_hits_perm.
    by apply (elem_of_lookup_imap_2 (fun i y => (Faiss.fvec_L2sqr q y, i))). }
  rewrite Hr in Hs, Hin. apply StronglySorted_inv in Hs as [_ Hall].
  apply elem_of_cons in Hin as [<-|Hin]; [apply Qle_refl|].
  rewrite Forall_forall in Hall. by apply (Hall _ Hin).
Qed.

(** X2. On a store with as many documents as vectors, each with an ["id"],
    after an [add_vector] that returns normally a [search] for the vector
    just added with [k > 0] returns a first document whose score is 1. The
    stored vectors are in the range where float32 is exact. *)
Theorem search_finds_added_vector self vector doc fs self' fs' k :
  length (documents self) = Faiss.ntotal (index self) ->
  Forall (fun doc => is_Some (dict_get "id" doc)) (documents self) ->
  add_vector self vector doc fs = (Ok tt, self', fs') ->
  Faiss.float32_exact (index self') vector = true ->
  (0 < k)%Z ->
  exists first rest x,
    search self' vector k = Ok (first :: rest) /\
    score first = Some x /\ (x == 1)%Q.
Proof.
  intros Hlen Hids Hadd _ Hk.
  destruct (add_vector_ok_id _ _ _ _ _ _ Hadd) as [Hd [id Hid]].
  rewrite (add_vector_appends _ _ _ _ _ _ _ Hadd ltac:(done)).
  clear Hadd self'.
  set (self' := Build_FAISSVectorDB _ _ _ _ _).
  assert (Faiss.ntotal (index self') = S (Faiss.ntotal (index self))) as Hn.
  { unfold Faiss.ntotal. simpl. rewrite length_app. simpl. lia. }
  assert (length (documents self') = Faiss.ntotal (index self')) as Hlen'.
  { rewrite Hn. simpl. rewrite length_app, Hlen. simpl. lia. }
  assert (Forall (fun doc => is_Some (dict_get "id" doc)) (documents self'))
    as Hids'.
  { simpl. apply Forall_app. split; [done|]. apply Forall_singleton.
    by eexists. }
  rewrite (search_in_shape self' vector k ltac:(lia) Hd Hk Hlen' Hids').
  rewrite Hn.
  destruct (Faiss.ranked (index self') vector) as [|h rest] eqn:Hr.
  { apply (f_equal length) in Hr. rewrite FaissFacts.length_ranked, Hn in Hr.
    done. }
  replace (Z.to_nat (Z.min k (Z.of_nat (S (Faiss.ntotal (index self))))))
    with (S (Z.to_nat (Z.min k (Z.of_nat (S (Faiss.ntotal (index self)))) - 1)))
    by lia.
  simpl. eexists _, _, (similarity (fst h)). split; [done|].
  split; [unfold score, scored; by rewrite dict_get_set_eq|].
  assert (fst h == 0)%Q as Hzero.
  { apply Qle_antisym.
    - rewrite <-(fvec_L2sqr_self vector).
      apply (ranked_head_nearest (index self') vector h rest
               (length (Faiss.xb (index self))) vector Hr).
      simpl. by apply list_lookup_middle.
    - assert (h ∈ Faiss.ranked (index self') vector) as Hin
        by (rewrite Hr; left).
      apply FaissFacts.elem_of_ranked in Hin as (y & _ & ->).
      apply fvec_L2sqr_nonneg. }
  unfold similarity. rewrite Hzero. reflexivity.
Qed.

Lemma search_finds_added_vector_witness :
  exists first rest x,
    search one_vector.1 [1; 0]%Q 3 = Ok (first :: rest) /\
    score first = Some x /\ (x == 1)%Q.
Proof.
  exact (search_finds_added_vector first_start [1; 0]%Q doc_a ∅
           one_vector.1 one_vector.2 3 eq_refl (Forall_nil_2 _) eq_refl eq_refl
           eq_refl).
Defined.

(** *** Restarting *)

(** X3. With two distinct files, after an [add_vector] that got past the
    index's dimension check and both writes (whether it then returns or
    raises [KeyError]) a restart on the same files resumes with exactly
    the index and the documents the running store holds. *)
Theorem restart_restores_store self vector doc fs r self' fs' dim :
  index_file self <> data_file self ->
  add_vector self vector doc fs = (r, self', fs') ->
  r = Ok tt \/ (exists key, r = Raise (KeyError key)) ->
  __init__ dim (index_file self) (data_file self) fs' =
    {| dimension := dim;
       index_file := index_file self;
       data_file := data_file self;
       index := index self';
       documents := documents self' |}.
Proof.
  intros Hne Hadd Hr.
  destruct (add_vector_files _ _ _ _ _ _ _ Hadd) as [Hi Hd].
  pose proof (add_vector_saved _ _ _ _ _ _ _ Hadd Hr) as Hsave.
  rewrite init_load, <-Hi, <-Hd.
  rewrite (load_saved self' fs fs'); [done| |done]. by rewrite Hi, Hd.
Qed.

Lemma restart_restores_store_witness :
  __init__ 7 "vector_index.faiss" "vector_data.pkl" one_vector.2 =
    {| dimension := 7;
       index_file := "vector_index.faiss";
       data_file := "vector_data.pkl";
       index := index one_vector.1;
       documents := documents one_vector.1 |}.
Proof.
  exact (restart_restores_store first_start [1; 0]%Q doc_a ∅ (Ok tt)
           one_vector.1 one_vector.2 7 ltac:(done) eq_refl (or_introl eq_refl)).
Defined.

(** X4. After [clear], whatever the store and the disk held, a restart on
    the same files gives the fresh empty store, and the cleared store
    answers every [search] with the empty list. *)
Theorem clear_then_restart self fs dim q k :
  __init__ dim (index_file self) (data_file self) (clear self fs).2
  = fresh dim (index_file self) (data_file self) /\
  search (clear self fs).1.2 q k = Ok [].
Proof.
  destruct (clear_spec self fs) as (fs1 & -> & Hi & _).
  simpl. split; [|done].
  rewrite init_load.
  by destruct (load_existing_missing _ (data_file self) _ Hi) as [e ->].
Qed.

(** X5. When the index file and the data file are one path, [_save] writes
    the document list over the index just written, and a restart after any
    [add_vector] that returned normally falls back to the fresh empty store:
    what was added is not found again. *)
Theorem one_path_loses_the_index self vector doc fs self' fs' dim :
  index_file self = data_file self ->
  add_vector self vector doc fs = (Ok tt, self', fs') ->
  Faiss.ntotal (index self') = S (Faiss.ntotal (index self)) /\
  fs' !! index_file self = Some (PickleFile (documents self')) /\
  __init__ dim (index_file self) (data_file self) fs'
  = fresh dim (index_file self) (data_file self).
Proof.
  intros Heq Hadd.
  destruct (add_vector_files _ _ _ _ _ _ _ Hadd) as [Hi Hd].
  pose proof (add_vector_saved _ _ _ _ _ _ _ Hadd (or_introl eq_refl)) as Hsave.
  apply save_ok in Hsave. rewrite Hi, Hd, <-Heq in Hsave.
  rewrite (add_vector_appends _ _ _ _ _ _ _ Hadd ltac:(done)) in Hsave |- *.
  simpl in *. subst fs'. rewrite <-Heq.
  split; [unfold Faiss.ntotal; simpl; rewrite length_app; simpl; lia|].
  split; [by rewrite lookup_insert_eq|].
  rewrite init_load. unfold load_existing, read_index.
  by rewrite lookup_insert_eq.
Qed.

Lemma one_path_loses_the_index_witness :
  exists self' fs',
    add_vector (__init__ 2 "store.bin" "store.bin" ∅) [1; 0]%Q doc_a ∅
    = (Ok tt, self', fs') /\
    Faiss.ntotal (index self') = 1 /\
    __init__ 2 "store.bin" "store.bin" fs' = fresh 2 "store.bin" "store.bin".
Proof.
  eexists _, _. split; [reflexivity|].
  destruct (one_path_loses_the_index (__init__ 2 "store.bin" "store.bin" ∅)
              [1; 0]%Q doc_a ∅ _ _ 2 ltac:(by vm_compute) ltac:(reflexivity))
    as (Hn & _ & Hinit).
  split; [exact Hn | exact Hinit].
Defined.

(** *** Searches that raise *)

(** One turn of the loop of [search]. *)
Lemma search_results_hit (documents : list document) dist idx rest results :
  search_results documents (Faiss.Hit dist idx :: rest) results =
    match documents !! idx with
    | None => Raise IndexError
    | Some stored =>
        match dict_get "id" stored with
        | None => Raise (KeyError "id")
        | Some _ =>
            search_results documents rest
              (results ++ [dict_set "similarity_score"
                             (PFloat (similarity dist)) stored])
        end
    end.
Proof. simpl. destruct (_ !! _); [|done]. by rewrite dict_get_set_ne. Qed.

Lemma search_results_no_id (documents : list document) hs results :
  Forall (fun h : Q * nat =>
            exists doc : list (string * pyval), documents !! snd h = Some doc) hs ->
  Exists (fun h : Q * nat =>
            exists doc, documents !! snd h = Some doc /\ dict_get "id" doc = None) hs ->
  search_results documents (map (fun h => Faiss.Hit (fst h) (snd h)) hs) results
  = Raise (KeyError "id").
Proof.
  intros Hall Hex. revert results.
  induction hs as [|h hs IH]; intros results; [by inversion Hex|].
  apply Forall_cons in Hall as [[doc Hdoc] Hall].
  cbn [map]. rewrite search_results_hit, Hdoc.
  destruct (dict_get "id" doc) as [id|] eqn:Hid; [|done].
  apply IH; [done|]. apply Exists_cons in Hex as [(doc' & Hdoc' & Hid')|Hex];
    [congruence|done].
Qed.

Lemma search_results_index_error (documents : list document) hs results :
  Forall (fun h : Q * nat =>
            forall doc, documents !! snd h = Some doc -> is_Some (dict_get "id" doc)) hs ->
  Exists (fun h : Q * nat =>
            documents !! snd h =@{option (list (string * pyval))} None) hs ->
  search_results documents (map (fun h => Faiss.Hit (fst h) (snd h)) hs) results
  = Raise IndexError.
Proof.
  intros Hall Hex. revert results.
  induction hs as [|h hs IH]; intros results; [by inversion Hex|].
  apply Forall_cons in Hall as [Hh Hall].
  cbn [map]. rewrite search_results_hit.
  destruct (documents !! _) as [doc|] eqn:Hdoc; [|done].
  destruct (Hh doc eq_refl) as [id ->].
  apply IH; [done|]. apply Exists_cons in Hex as [Hex|Hex]; [|done].
  rewrite Hdoc in Hex. done.
Qed.

(** With [k] at least the number of vectors, every vector is among the
    entries the index returns. *)
Lemma search_reaches_all self q k :
  Faiss.ntotal (index self) <> 0 ->
  length q = Faiss.d (index self) ->
  (Z.of_nat (Faiss.ntotal (index self)) <= k)%Z ->
  search self q k =
    search_results (documents self)
      (map (fun h => Faiss.Hit (fst h) (snd h)) (Faiss.ranked (index self) q)) [].
Proof.
  intros Hn Hq Hk. unfold search, astype_float32. rewrite decide_False by done.
  rewrite FaissFacts.search_within by lia. unfold mbind, result_bind.
  rewrite take_ge; [done|]. rewrite FaissFacts.length_ranked. lia.
Qed.

Lemma ranked_label idx q i :
  i < Faiss.ntotal idx -> exists dist, (dist, i) ∈ Faiss.ranked idx q.
Proof.
  intros Hi. destruct (lookup_lt_is_Some_2 (Faiss.xb idx) i Hi) as [x Hx].
  exists (Faiss.fvec_L2sqr q x). unfold Faiss.ranked.
  rewrite FaissFacts.sort_hits_perm.
  by apply (elem_of_lookup_imap_2 (fun i y => (Faiss.fvec_L2sqr q y, i))).
Qed.

Lemma ranked_label_bound idx q h :
  h ∈ Faiss.ranked idx q -> snd h < Faiss.ntotal idx.
Proof.
  intros Hin. apply FaissFacts.elem_of_ranked in Hin as (x & Hx & _).
  by eapply lookup_lt_Some.
Qed.

(** X6. A stored document without an ["id"] makes every [search] that
    reaches all vectors ([k] at least their number, a query of the index's
    dimension) raise [KeyError], on a store with as many documents as
    vectors. The query and the stored vectors are in the range where
    float32 is exact, so that the index has a finite distance, and with it
    a label, for every vector. *)
Theorem search_raises_on_document_without_id self q k i doc :
  length (documents self) = Faiss.ntotal (index self) ->
  length q = Faiss.d (index self) ->
  Faiss.float32_exact (index self) q = true ->
  (Z.of_nat (Faiss.ntotal (index self)) <= k)%Z ->
  documents self !! i = Some doc ->
  dict_get "id" doc = None ->
  search self q k = Raise (KeyError "id").
Proof.
  intros Hlen Hq _ Hk Hdoc Hid.
  assert (i < Faiss.ntotal (index self)) as Hi
    by (rewrite <-Hlen; by eapply lookup_lt_Some).
  rewrite search_reaches_all by (done || lia).
  apply search_results_no_id.
  - apply Forall_forall. intros h Hin. apply ranked_label_bound in Hin.
    apply (lookup_lt_is_Some_2 (documents self)). by rewrite Hlen.
  - destruct (ranked_label (index self) q i Hi) as [dist Hin].
    apply Exists_exists. exists (dist, i). split; [done|]. by exists doc.
Qed.

Lemma search_raises_on_document_without_id_witness :
  documents anonymous_store !! 0 = Some doc_without_id /\
  search anonymous_store [0; 1]%Q 5 = Raise (KeyError "id").
Proof.
  split; [reflexivity|].
  exact (search_raises_on_document_without_id anonymous_store [0; 1]%Q 5 0
           doc_without_id eq_refl eq_refl eq_refl ltac:(by vm_compute)
           eq_refl eq_refl).
Defined.

(** X7. On a store that holds more vectors than documents (each document
    with an ["id"]), every [search] that reaches all vectors raises
    [IndexError]. The query and the stored vectors are in the range where
    float32 is exact, so that the index has a finite distance, and with it
    a label, for every vector. *)
Theorem search_raises_on_missing_document self q k :
  length (documents self) < Faiss.ntotal (index self) ->
  Forall (fun doc => is_Some (dict_get "id" doc)) (documents self) ->
  length q = Faiss.d (index self) ->
  Faiss.float32_exact (index self) q = true ->
  (Z.of_nat (Faiss.ntotal (index self)) <= k)%Z ->
  search self q k = Raise IndexError.
Proof.
  intros Hlen Hids Hq _ Hk.
  rewrite search_reaches_all by (done || lia).
  apply search_results_index_error.
  - apply Forall_forall. intros h _ doc Hdoc.
    eapply Forall_lookup_1 in Hids; done.
  - destruct (ranked_label (index self) q (length (documents self)) Hlen)
      as [dist Hin].
    apply Exists_exists. exists (dist, length (documents self)).
    split; [done|]. by apply lookup_ge_None_2.
Qed.

Lemma search_raises_on_missing_document_witness :
  search (__init__ 2 "vector_index.faiss" "vector_data.pkl" stale_data) [0; 1]%Q 1
  = Raise IndexError.
Proof.
  exact (search_raises_on_missing_document
           (__init__ 2 "vector_index.faiss" "vector_data.pkl" stale_data)
           [0; 1]%Q 1 ltac:(vm_compute; lia) (Forall_nil_2 _) eq_refl eq_refl
           ltac:(by vm_compute)).
Defined.

(** *** Searches that return everything *)

(** X8. On a store with as many documents as vectors, each with an ["id"],
    a [search] with [k] at least the number of vectors returns every stored
    document once: the returned list is a permutation of the stored
    documents, each with the score of its own vector. The query and the
    stored vectors are in the range where float32 is exact. *)
Theorem search_returns_all self q k :
  Faiss.ntotal (index self) <> 0 ->
  length q = Faiss.d (index self) ->
  Faiss.float32_exact (index self) q = true ->
  (Z.of_nat (Faiss.ntotal (index self)) <= k)%Z ->
  length (documents self) = Faiss.ntotal (index self) ->
  Forall (fun doc => is_Some (dict_get "id" doc)) (documents self) ->
  exists res,
    search self q k = Ok res /\
    res ≡ₚ zip_with
             (fun x doc =>
                dict_set "similarity_score"
                  (PFloat (similarity (Faiss.fvec_L2sqr q x))) doc)
             (Faiss.xb (index self)) (documents self).
Proof.
  intros Hn Hq _ Hk Hlen Hids. eexists. split.
  { rewrite (search_in_shape self q k) by (done || lia).
    rewrite take_ge; [done|]. rewrite FaissFacts.length_ranked. lia. }
  unfold Faiss.ranked. rewrite FaissFacts.sort_hits_perm.
  unfold Faiss.ntotal in Hlen.
  apply reflexive_eq.
  apply list_eq. intros i.
  rewrite list_lookup_fmap, list_lookup_imap, lookup_zip_with.
  destruct (Faiss.xb (index self) !! i) as [x|] eqn:Hx; simpl; [|done].
  destruct (lookup_lt_is_Some_2 (documents self) i) as [doc Hdoc].
  { rewrite Hlen. by eapply lookup_lt_Some. }
  unfold scored. simpl.
  repeat match goal with
  | |- context [@lookup ?K ?A ?M ?I i (documents self)] =>
      let H := fresh in
      assert (@lookup K A M I i (documents self) = Some doc) as H by exact Hdoc;
      rewrite H; clear H
  end.
  done.
Qed.

Lemma search_returns_all_witness :
  exists res,
    search on_a_line [0]%Q 10 = Ok res /\
    length res = 3 /\
    res ≡ₚ zip_with
             (fun x doc =>
                dict_set "similarity_score"
                  (PFloat (similarity (Faiss.fvec_L2sqr [0]%Q x))) doc)
             (Faiss.xb (index on_a_line)) (documents on_a_line).
Proof.
  destruct (search_returns_all on_a_line [0]%Q 10) as (res & Hres & Hperm).
  - by vm_compute.
  - reflexivity.
  - reflexivity.
  - by vm_compute.
  - reflexivity.
  - repeat constructor; by eexists.
  - exists res. split; [exact Hres|]. split; [|exact Hperm].
    rewrite Hperm. reflexivity.
Defined.

End DatabaseMore.

(** ** More on the answer generator *)
Module LLMMore.
Import LLM Vocabulary.

(** The retry loop by cases on the first three outcomes. *)
Lemma retry_loop_cases create :
  retry_loop create max_retries (seq 0 max_retries) 2 {| calls := 0; sleeps := [] |} =
    match create 0, create 1, create 2 with
    | Answer answer, _, _ => (Some answer, {| calls := 1; sleeps := [] |})
    | Failure _, Answer answer, _ => (Some answer, {| calls := 2; sleeps := [2]%Z |})
    | Failure _, Failure _, Answer answer =>
        (Some answer, {| calls := 3; sleeps := [2; 4]%Z |})
    | Failure _, Failure _, Failure e =>
        (Some ("Error generating answer: " +:+ e), {| calls := 3; sleeps := [2; 4]%Z |})
    end.
Proof.
  unfold max_retries. simpl.
  destruct (create 0); [done|]. simpl.
  destruct (create 1); [done|]. simpl.
  by destruct (create 2).
Qed.

(** X9. When building the context does not raise,
    [generate_answer_from_results] returns a string (never [None], never an
    exception) after 1 to 3 invocations; every invocation but the last
    failed, an invocation before the third that ends the loop succeeded,
    and the sleeps are the first [calls - 1] of 2 and 4 seconds. *)
Theorem generate_answer_stops_at_first_answer create results :
  build_context results = Ok tt ->
  exists answer w,
    generate_answer_from_results create results = (Ok (Some answer), w) /\
    1 <= calls w <= 3 /\
    sleeps w = take (calls w - 1) [2; 4]%Z /\
    (forall n, n < calls w - 1 -> exists e, create n = Failure e) /\
    (calls w < 3 -> create (calls w - 1) = Answer answer).
Proof.
  intros Hctx. unfold generate_answer_from_results.
  rewrite Hctx, retry_loop_cases.
  destruct (create 0) as [a0|e0] eqn:E0;
    [|destruct (create 1) as [a1|e1] eqn:E1;
      [|destruct (create 2) as [a2|e2] eqn:E2]];
    (eexists _, _; split; [done|]; simpl; split_and!; try done; try lia;
     intros n Hn; repeat (destruct n as [|n]; [by eauto|]); lia).
Qed.

Lemma generate_answer_stops_at_first_answer_witness :
  exists answer w,
    generate_answer_from_results third_time_lucky one_result = (Ok (Some answer), w) /\
    1 <= calls w <= 3 /\
    sleeps w = take (calls w - 1) [2; 4]%Z /\
    (forall n, n < calls w - 1 -> exists e, third_time_lucky n = Failure e) /\
    (calls w < 3 -> third_time_lucky (calls w - 1) = Answer answer).
Proof.
  exact (generate_answer_stops_at_first_answer third_time_lucky one_result eq_refl).
Defined.

Lemma build_context_fits results :
  Forall fits_context results -> build_context results = Ok tt.
Proof.
  induction 1 as [|doc results [[x Hx] [t Ht]] _ IH]; simpl; [done|].
  by rewrite Hx, Ht.
Qed.

Lemma search_results_fit documents hits results res :
  Forall (fun doc => is_Some (dict_get "text" doc)) documents ->
  Database.search_results documents hits results = Ok res ->
  Forall fits_context results -> Forall fits_context res.
Proof.
  intros Hdocs. revert results.
  induction hits as [|[dist idx|] hits IH]; intros results; simpl.
  - by intros [= <-].
  - destruct (_ !! idx) as [stored|] eqn:Hidx; [|done].
    destruct (dict_get "id" _); [|done].
    intros Hres Hfit. apply (IH _ Hres). apply Forall_app. split; [done|].
    apply Forall_singleton. split.
    + eexists. apply dict_get_set_eq.
    + rewrite dict_get_set_ne by done.
      eapply Forall_lookup_1 in Hdocs; done.
  - apply IH.
Qed.

(** X10. What [search] returns is input the answer generator accepts: when
    every stored document has a ["text"], building the context from the
    results of a [search] does not raise, and
    [generate_answer_from_results] returns a string. *)
Theorem search_results_feed_generator self q k res create :
  Forall (fun doc => is_Some (dict_get "text" doc)) (Database.documents self) ->
  Database.search self q k = Ok res ->
  build_context res = Ok tt /\
  exists answer w, generate_answer_from_results create res = (Ok (Some answer), w).
Proof.
  intros Hdocs Hsearch.
  assert (build_context res = Ok tt) as Hctx.
  { apply build_context_fits. unfold Database.search in Hsearch.
    case_decide; [by injection Hsearch as <-|].
    destruct (Faiss.search _ _ _) as [hits|e]; [|done].
    unfold mbind, result_bind in Hsearch.
    by eapply search_results_fit. }
  split; [done|]. unfold generate_answer_from_results.
  rewrite Hctx, retry_loop_cases.
  destruct (create 0); [by eexists _, _|].
  destruct (create 1); [by eexists _, _|].
  destruct (create 2); by eexists _, _.
Qed.

Lemma search_results_feed_generator_witness :
  exists res,
    Database.search Lifecycle.on_a_line [0]%Q 2 = Ok res /\
    build_context res = Ok tt /\
    exists answer w,
      generate_answer_from_results always_failing res = (Ok (Some answer), w).
Proof.
  eexists. split; [reflexivity|].
  apply (search_results_feed_generator Lifecycle.on_a_line [0]%Q 2 _ always_failing);
    [|reflexivity].
  repeat constructor; by eexists.
Defined.

(** X11. A result without a ["text"] or without a ["similarity_score"]
    makes [generate_answer_from_results] raise before the collaborator is
    invoked: no invocation, no sleep, no string. *)
Theorem missing_field_raises_before_any_call create results doc :
  doc ∈ results ->
  dict_get "text" doc = None \/ dict_get "similarity_score" doc = None ->
  exists e,
    generate_answer_from_results create results
    = (Raise e, {| calls := 0; sleeps := [] |}).
Proof.
  intros Hin Hmiss.
  assert (exists e, build_context results = Raise e) as [e He].
  { induction results as [|r results IH]; [by apply elem_of_nil in Hin|].
    simpl. destruct (dict_get "similarity_score" r) as [s|] eqn:Hs; [|by eexists].
    destruct (format_2f s) as [[]|e'] eqn:Hf; [|by eexists].
    unfold mbind, result_bind.
    destruct (dict_get "text" r) as [t|] eqn:Ht; [|by eexists].
    apply elem_of_cons in Hin as [->|Hin]; [|by apply IH].
    destruct Hmiss; congruence. }
  exists e. unfold generate_answer_from_results. by rewrite He.
Qed.

Lemma missing_field_raises_before_any_call_witness :
  exists e,
    generate_answer_from_results third_time_lucky
      [[("id", PStr "a"); ("similarity_score", PFloat 1)]]
    = (Raise e, {| calls := 0; sleeps := [] |}).
Proof.
  exact (missing_field_raises_before_any_call third_time_lucky
           [[("id", PStr "a"); ("similarity_score", PFloat 1)]]
           [("id", PStr "a"); ("similarity_score", PFloat 1)]
           ltac:(left) (or_introl eq_refl)).
Defined.

End LLMMore.

(** ** More on the normalizer *)
Module IngestFacts.
Import Processors Ingest Vocabulary.

(** *** Ids *)

(** The ids of documents made by position. *)
Lemma imap_ids {A} (f : nat -> A -> document) (id : nat -> string) (l : list A) :
  (forall i x, dict_get "id" (f i x) = Some (PStr (id i))) ->
  map (dict_get "id") (imap f l) = (fun i => Some (PStr (id i))) <$> seq 0 (length l).
Proof.
  intros Hid. rewrite <-imap_seq_0.
  change (map (dict_get "id") (imap f l)) with (dict_get "id" <$> imap f l).
  rewrite fmap_imap. apply imap_ext. intros i x _. apply Hid.
Qed.

Lemma numbered_ids_distinct (prefix : string) (shift : nat -> nat) n :
  Inj (=) (=) shift ->
  NoDup ((fun i => Some (PStr (prefix +:+ pretty (shift i)))) <$> seq 0 n).
Proof.
  intros Hshift. apply NoDup_fmap_2; [|apply NoDup_seq].
  intros i j [= H]. apply String.app_inj in H.
  apply pretty_nat_inj in H. by apply Hshift.
Qed.

(** X12. For a top-level JSON list, [process_json] emits one document per
    element, the document of element [i] has the id [json_<i>], and the
    ids are pairwise distinct. *)
Theorem json_list_ids_distinct float_repr items :
  length (documents_of float_repr (PList items)) = length items /\
  map (dict_get "id") (documents_of float_repr (PList items))
  = (fun i => Some (PStr ("json_" +:+ pretty i))) <$> seq 0 (length items) /\
  NoDup (map (dict_get "id") (documents_of float_repr (PList items))).
Proof.
  assert (map (dict_get "id") (documents_of float_repr (PList items))
          = (fun i => Some (PStr ("json_" +:+ pretty i))) <$> seq 0 (length items))
    as Hids.
  { simpl. apply (imap_ids _ (fun i => "json_" +:+ pretty i)).
    intros i x. unfold list_item_document. by destruct (is_dict x). }
  split; [simpl; apply length_imap|]. split; [done|].
  rewrite Hids. apply (numbered_ids_distinct "json_" id). apply _.
Qed.

(** X14. [process_csv] takes the first row for the headers and emits one
    document per later row, with the ids [csv_1], [csv_2], ... in row
    order, pairwise distinct; no row or the header row alone gives no
    document. *)
Theorem csv_rows_ids_distinct rows :
  length (csv_documents rows) = length rows - 1 /\
  map (dict_get "id") (csv_documents rows)
  = (fun i => Some (PStr ("csv_" +:+ pretty (S i)))) <$> seq 0 (length rows - 1) /\
  NoDup (map (dict_get "id") (csv_documents rows)).
Proof.
  assert (map (dict_get "id") (csv_documents rows)
          = (fun i => Some (PStr ("csv_" +:+ pretty (S i))))
              <$> seq 0 (length rows - 1)) as Hids.
  { destruct rows as [|headers data]; [done|]. simpl. rewrite Nat.sub_0_r.
    by apply (imap_ids _ (fun i => "csv_" +:+ pretty (S i))). }
  split.
  - destruct rows as [|headers data]; [done|]. simpl.
    rewrite length_imap. lia.
  - split; [done|]. rewrite Hids. apply (numbered_ids_distinct "csv_" S). apply _.
Qed.

(** *** Rows *)

Lemma dict_get_absent {V} (d : list (string * V)) k :
  k ∉ d.*1 -> dict_get k d = None.
Proof.
  induction d as [|[k' v] d IH]; simpl; [done|].
  intros Hk. apply not_elem_of_cons in Hk as [Hne Hk].
  destruct (String.eqb k k') eqn:E; [|by apply IH].
  apply String.eqb_eq in E. done.
Qed.

Lemma dict_set_absent {V} (d : list (string * V)) k v :
  k ∉ d.*1 -> dict_set k v d = d ++ [(k, v)].
Proof.
  induction d as [|[k' v'] d IH]; simpl; [done|].
  intros Hk. apply not_elem_of_cons in Hk as [Hne Hk].
  destruct (String.eqb k k') eqn:E; [|by rewrite IH].
  apply String.eqb_eq in E. done.
Qed.

Lemma row_dict_from_zip headers :
  NoDup headers ->
  forall row j acc,
    acc.*1 = take j headers ->
    row_dict_from headers j row acc = acc ++ zip (drop j headers) row.
Proof.
  intros Hnd. induction row as [|value rest IH]; intros j acc Hacc; simpl.
  - destruct (drop j headers); by rewrite app_nil_r.
  - destruct (headers !! j) as [header|] eqn:Hj.
    + rewrite (drop_S _ _ _ Hj). simpl.
      rewrite dict_set_absent.
      2:{ rewrite Hacc. intros Hin. apply elem_of_take in Hin as (i & Hi & Hlt).
          pose proof (NoDup_lookup _ _ _ _ Hnd Hi Hj). lia. }
      rewrite IH; [by rewrite <-app_assoc|].
      rewrite fmap_app, Hacc. simpl. by rewrite (take_S_r _ _ _ Hj).
    + apply lookup_ge_None_1 in Hj.
      rewrite IH.
      * rewrite !drop_ge by lia. done.
      * rewrite Hacc, !take_ge by lia. done.
Qed.

Lemma dict_get_zip (headers : list string) :
  NoDup headers ->
  forall (row : list string) j header,
    headers !! j = Some header ->
    dict_get header (zip headers row) = row !! j.
Proof.
  induction 1 as [|h headers Hnotin Hnd IH]; intros row j header Hj; [done|].
  destruct row as [|value rest]; [by destruct j|].
  simpl. destruct j as [|j]; simpl in Hj.
  - injection Hj as ->. by rewrite String.eqb_refl.
  - destruct (String.eqb header h) eqn:E.
    + apply String.eqb_eq in E. subst h.
      apply list_elem_of_lookup_2 in Hj. done.
    + exact (IH rest j header Hj).
Qed.

Lemma row_dict_zip headers row :
  NoDup headers -> row_dict headers row = zip headers row.
Proof. intros Hnd. unfold row_dict. by rewrite row_dict_from_zip. Qed.

Lemma row_dict_get headers row j header :
  NoDup headers ->
  headers !! j = Some header ->
  dict_get header (row_dict headers row) = row !! j.
Proof. intros Hnd Hj. rewrite row_dict_zip by done. by apply dict_get_zip. Qed.

(** X15. With pairwise distinct headers, the mapping [process_csv] makes
    of a row pairs the headers with the cells in order, as far as both go:
    the header at position [j] is bound to cell [j], a header beyond the
    end of a short row is absent (not bound to the empty string), and the
    cells beyond the last header are dropped. *)
Theorem row_dict_pairs_headers_with_cells headers row :
  NoDup headers ->
  row_dict headers row = zip headers row /\
  length (row_dict headers row) = min (length headers) (length row) /\
  forall j header,
    headers !! j = Some header ->
    dict_get header (row_dict headers row) = row !! j.
Proof.
  intros Hnd.
  split; [by apply row_dict_zip|].
  split; [rewrite row_dict_zip by done; apply length_zip|].
  intros j header. by apply row_dict_get.
Qed.

Lemma row_dict_pairs_headers_with_cells_witness :
  row_dict ["name"; "city"; "age"] ["Ada"; "London"]
  = [("name", "Ada"); ("city", "London")] /\
  dict_get "age" (row_dict ["name"; "city"; "age"] ["Ada"; "London"]) = None.
Proof.
  assert (NoDup ["name"; "city"; "age"]) as Hnd
    by (apply (bool_decide_unpack _); by vm_compute).
  destruct (row_dict_pairs_headers_with_cells ["name"; "city"; "age"]
              ["Ada"; "London"] Hnd) as (Hzip & _ & Hget).
  split; [exact Hzip|]. exact (Hget 2 "age" eq_refl).
Defined.

(** X16. With pairwise distinct headers, the text of a row lists every
    header in header order, each followed by its cell, and by nothing when
    the row is too short to have one. *)
Theorem row_text_lists_headers headers row :
  NoDup headers ->
  row_text headers (row_dict headers row)
  = String.concat ", "
      (imap (fun j header => header +:+ ": " +:+ default "" (row !! j)) headers).
Proof.
  intros Hnd. unfold row_text. f_equal.
  apply list_eq. intros j.
  change (map (cell_text (row_dict headers row)) headers)
    with (cell_text (row_dict headers row) <$> headers).
  rewrite list_lookup_fmap, list_lookup_imap.
  destruct (headers !! j) as [header|] eqn:Hj; simpl; [|done].
  unfold cell_text. by rewrite (row_dict_get headers row j header).
Qed.

Lemma row_text_lists_headers_witness :
  row_text ["name"; "city"; "age"] (row_dict ["name"; "city"; "age"] ["Ada"; "London"])
  = "name: Ada, city: London, age: ".
Proof.
  assert (NoDup ["name"; "city"; "age"]) as Hnd
    by (apply (bool_decide_unpack _); by vm_compute).
  rewrite (row_text_lists_headers ["name"; "city"; "age"] ["Ada"; "London"] Hnd).
  reflexivity.
Defined.

(** *** Pages *)

Lemma elem_of_pdf_documents_from total pages : forall i doc,
  doc ∈ pdf_documents_from total i pages <->
  exists j text,
    pages !! j = Some text /\ strip_nonempty text = true /\
    doc = page_document total (i + j + 1) text.
Proof.
  induction pages as [|page pages IH]; intros i doc; simpl.
  - split; [by intros ?%elem_of_nil | by intros (j & text & ? & _)].
  - assert (doc ∈ pdf_documents_from total (S i) pages <->
            exists j text, (page :: pages) !! S j = Some text /\
                           strip_nonempty text = true /\
                           doc = page_document total (i + S j + 1) text) as Hrest.
    { rewrite IH. split; intros (j & text & Hj & Hne & ->); exists j, text;
        (split; [done|]); (split; [done|]); f_equal; lia. }
    destruct (strip_nonempty page) eqn:Hpage.
    + rewrite elem_of_cons, Hrest. split.
      * intros [->|(j & text & Hj & Hne & ->)].
        -- exists 0, page. split_and!; try done. unfold page_document.
           by rewrite Nat.add_0_r.
        -- by exists (S j), text.
      * intros ([|j] & text & Hj & Hne & ->).
        -- left. injection Hj as <-. unfold page_document.
           by rewrite Nat.add_0_r.
        -- right. by exists j, text.
    + rewrite Hrest. split.
      * intros (j & text & Hj & Hne & ->). by exists (S j), text.
      * intros ([|j] & text & Hj & Hne & ->).
        -- injection Hj as <-. congruence.
        -- by exists j, text.
Qed.

Lemma pdf_documents_from_length total pages : forall i,
  length (pdf_documents_from total i pages) <= length pages.
Proof.
  induction pages as [|page pages IH]; intros i; simpl; [done|].
  specialize (IH (S i)). destruct (strip_nonempty page); simpl; lia.
Qed.

(** The loop of [process_pdf] keeps the pages in order. *)
Lemma pdf_documents_from_filter total pages : forall i,
  pdf_documents_from total i pages =
    (fun p : nat * string => page_document total (p.1 + 1) p.2) <$>
      filter (fun p : nat * string => strip_nonempty p.2 = true)
             (imap (fun j text => (i + j, text)) pages).
Proof.
  induction pages as [|page pages IH]; intros i; [done|].
  cbn [pdf_documents_from imap]. rewrite filter_cons. cbn [snd fst].
  rewrite (IH (S i)).
  assert (imap ((fun j text => (i + j, text)) ∘ S) pages
          = imap (fun j text => (S i + j, text)) pages) as ->.
  { apply imap_ext. intros j text _. simpl. f_equal. lia. }
  destruct (strip_nonempty page) eqn:Hpage.
  - rewrite decide_True by done. rewrite fmap_cons. cbn [fst snd].
    by rewrite Nat.add_0_r.
  - by rewrite decide_False by done.
Qed.

(** X17. [process_pdf] emits the pages whose text is not all whitespace,
    in page order and each once, each under its own page number (from 1,
    the skipped pages counted) and with the number of all pages; a file
    whose pages are all whitespace gives no document. Whitespace is what
    [str.strip] strips: a page that holds nothing but a no-break space and
    a next-line control is skipped. *)
Theorem pdf_documents_are_the_nonblank_pages pages :
  pdf_documents pages =
    (fun p : nat * string => page_document (length pages) (p.1 + 1) p.2) <$>
      filter (fun p : nat * string => strip_nonempty p.2 = true)
             (imap pair pages) /\
  (forall doc,
     doc ∈ pdf_documents pages <->
     exists j text,
       pages !! j = Some text /\ strip_nonempty text = true /\
       doc = page_document (length pages) (j + 1) text) /\
  length (pdf_documents pages) <= length pages /\
  (pdf_documents pages = [] <-> Forall (fun text => strip_nonempty text = false) pages) /\
  pdf_documents ["one"; String "160" (String "133" (String "009" "")); "three"]
  = [page_document 3 1 "one"; page_document 3 3 "three"].
Proof.
  split; [apply pdf_documents_from_filter|].
  split; [intros doc; apply elem_of_pdf_documents_from|].
  split; [apply pdf_documents_from_length|].
  split; [|reflexivity].
  split.
  - intros Hnil. apply Forall_forall. intros text Hin.
    apply list_elem_of_lookup_1 in Hin as [j Hj].
    destruct (strip_nonempty text) eqn:Hne; [|done].
    assert (page_document (length pages) (0 + j + 1) text ∈ pdf_documents pages)
      as Hdoc by (apply elem_of_pdf_documents_from; by exists j, text).
    rewrite Hnil in Hdoc. by apply elem_of_nil in Hdoc.
  - intros Hall. destruct (pdf_documents pages) as [|doc docs] eqn:E; [done|].
    assert (doc ∈ pdf_documents pages) as Hdoc by (rewrite E; left).
    apply elem_of_pdf_documents_from in Hdoc as (j & text & Hj & Hne & _).
    eapply Forall_lookup_1 in Hall; [|done]. congruence.
Qed.

(** *** From the normalizer to the store *)

Lemma documents_of_normalized float_repr data :
  Forall normalized (documents_of float_repr data).
Proof.
  destruct data; simpl; try (repeat constructor; by eexists _, _, _).
  - apply Forall_forall. intros doc Hin.
    apply elem_of_lookup_imap_1 in Hin as (i & x & -> & _).
    unfold list_item_document. destruct (is_dict x); by eexists _, _, _.
  - apply Forall_forall. intros doc Hin.
    apply list_elem_of_fmap in Hin as (kv & -> & _). by eexists _, _, _.
Qed.

Lemma csv_documents_normalized rows : Forall normalized (csv_documents rows).
Proof.
  destruct rows as [|headers data]; simpl; [done|].
  apply Forall_forall. intros doc Hin.
  apply elem_of_lookup_imap_1 in Hin as (i & x & -> & _). by eexists _, _, _.
Qed.

Lemma pdf_documents_normalized pages : Forall normalized (pdf_documents pages).
Proof.
  apply Forall_forall. intros doc Hin.
  apply elem_of_pdf_documents_from in Hin as (j & text & _ & _ & ->).
  by eexists _, _, _.
Qed.

(** X13. Whatever the format, every document [process_file] returns has an
    ["id"] and a ["text"], and [add_vector] with it and a vector of the
    index's dimension, where both files of the store can be written,
    returns normally, the document stored last. *)
Theorem normalized_documents_are_added float_repr json_loads csv_rows pdf_pages
    content file_type docs doc self vector fs :
  process_file float_repr json_loads csv_rows pdf_pages content file_type = Ok docs ->
  doc ∈ docs ->
  length vector = Faiss.d (Database.index self) ->
  writable fs (Database.index_file self) = true ->
  writable fs (Database.data_file self) = true ->
  normalized doc /\
  exists self' fs',
    Database.add_vector self vector doc fs = (Ok tt, self', fs') /\
    Database.documents self' = Database.documents self ++ [doc].
Proof.
  intros Hfile Hin Hlen Hwi Hwd.
  assert (Forall normalized docs) as Hall.
  { unfold process_file, process_json, process_csv, process_pdf in Hfile.
    repeat case_match; try done; injection Hfile as <-;
      auto using documents_of_normalized, csv_documents_normalized,
        pdf_documents_normalized. }
  rewrite Forall_forall in Hall. specialize (Hall doc Hin).
  split; [done|]. destruct Hall as (id & text & metadata & ->).
  destruct (DatabaseFacts.add_vector_ok self vector
              [("id", PStr id); ("text", PStr text); ("metadata", PDict metadata)]
              fs Hlen Hwi Hwd ltac:(by eexists))
    as (self' & fs' & Hadd & _ & Hdocs).
  by exists self', fs'.
Qed.

Lemma normalized_documents_are_added_witness :
  exists docs doc,
    process_file (fun _ => "") (fun _ => None)
      (fun _ => Some [["name"; "city"]; ["Ada"; "London"]]) (fun _ => None)
      "name,city" "csv" = Ok docs /\
    docs = [doc] /\
    normalized doc /\
    exists self' fs',
      Database.add_vector Lifecycle.first_start [1; 0]%Q doc ∅ = (Ok tt, self', fs') /\
      Database.documents self' = [doc].
Proof.
  eexists _, _. split; [reflexivity|]. split; [reflexivity|].
  exact (normalized_documents_are_added (fun _ => "") (fun _ => None)
           (fun _ => Some [["name"; "city"]; ["Ada"; "London"]]) (fun _ => None)
           "name,city" "csv" _ _ Lifecycle.first_start [1; 0]%Q ∅
           eq_refl ltac:(left) eq_refl eq_refl eq_refl).
Defined.

End IngestFacts.

(** ** The embedding call *)
Module EmbeddingsFacts.
Import Embeddings.

Lemma replace_newlines_length text :
  String.length (replace_newlines text) = String.length text.
Proof. induction text as [|c text IH]; simpl; [done|]. by rewrite IH. Qed.

Lemma replace_newlines_get text n :
  String.get n (replace_newlines text) =
    match String.get n text with
    | Some c => Some (if Ascii.eqb c "010"%char then " "%char else c)
    | None => None
    end.
Proof.
  revert n. induction text as [|c text IH]; intros n; simpl; [done|].
  destruct n; [done|]. apply IH.
Qed.

(** X18. [get_embedding_for_text] invokes the collaborator once, with the
    text in which every newline is replaced by a space and every other
    character is kept in place, and hands back what the collaborator gave,
    an exception as it is. *)
Theorem embedding_input_has_no_newline create text :
  exists input,
    get_embedding_for_text create text = (create input, [input]) /\
    String.length input = String.length text /\
    forall n,
      String.get n input <> Some "010"%char /\
      (String.get n text <> Some "010"%char -> String.get n input = String.get n text) /\
      (String.get n text = Some "010"%char -> String.get n input = Some " "%char).
Proof.
  exists (replace_newlines text). split.
  { unfold get_embedding_for_text. by destruct (create _). }
  split; [apply replace_newlines_length|].
  intros n. rewrite replace_newlines_get.
  destruct (String.get n text) as [c|]; [|done].
  destruct (Ascii.eqb c "010") eqn:E.
  - apply Ascii.eqb_eq in E. subst c. done.
  - apply Ascii.eqb_neq in E. split_and!; try done; congruence.
Qed.

End EmbeddingsFacts.
